(** * Budget tracker: aggregation, report rendering and import validation

    A shallow embedding of [src/app1.py].  The in-scope code is the store
    helpers ([add_transaction], [load_transactions],
    [bulk_insert_transactions]), the aggregator ([monthly_summary],
    [category_breakdown]), the PDF renderer ([create_pdf_report]) and the
    import validator ([process_uploaded_file]).

    Conventions of the embedding:
    - a pandas frame of transactions is the list of its rows, in row order;
      [df.empty] is "no rows";
    - amounts are SQLite [REAL] / float64 in the program; they are embedded
      as binary64 floats ([float]), with their rounding, infinities and NaN;
    - Python [str] values are embedded as [string], holding the UTF-8
      encoding of the text: one to four bytes per character;
    - a date is the triple (year, month, day) of a [datetime.date];
    - pandas, numpy and SQLite are library code.  Where a function of the
      program hands its data to a library call whose result the program does
      not determine (the file readers, [pd.to_numeric], [pd.to_datetime],
      the order in which numpy and [groupby] add the numbers of a column,
      the sort behind [sort_values]), the call is a parameter of the embedded
      function, and the statements hold for every value of the parameter
      that meets the conditions they name. *)

From Stdlib Require Import List String Ascii Bool ZArith Lia Floats.
From Stdlib Require Import Permutation Sorted DecimalString.
Import ListNotations.
Local Open Scope string_scope.
Local Open Scope Z_scope.

(** ** Data model *)

Record Date := mkDate { year : Z; month : Z; day : Z }.

(** One row of the [transactions] table, as [load_transactions] reads it
    back: [notes] is the only nullable column. *)
Record Transaction := mkTx {
  id : Z;
  type : string;
  category : string;
  amount : float;
  currency : string;
  date : Date;
  notes : option string
}.

Definition DataFrame := list Transaction.

Definition empty {A : Type} (df : list A) : bool :=
  match df with [] => true | _ :: _ => false end.

(** Python truthiness of an optional integer argument: [None] and [0] are
    both false, which is how [if year:] and [if month:] read them. *)
Definition truthy (o : option Z) : bool :=
  match o with
  | Some n => negb (n =? 0)
  | None => false
  end.

(** ** Sorting

    Insertion sort by a boolean "comes no later than" test.  It is stable, so
    it describes SQL's [ORDER BY] on a key that is unique per row and the
    sorted key order of [groupby]. *)

Section InsertionSort.
Context {A : Type} (leb : A -> A -> bool).

Fixpoint insert (x : A) (l : list A) : list A :=
  match l with
  | [] => [x]
  | y :: r => if leb x y then x :: l else y :: insert x r
  end.

Fixpoint isort (l : list A) : list A :=
  match l with
  | [] => []
  | x :: r => insert x (isort r)
  end.
End InsertionSort.

(** ** Floating-point numbers *)

Module Float64.

(** The integer a float is equal to, if it is one: what SQLite stores when
    a [REAL] is written to an [INTEGER] column. *)
Definition to_integer (x : float) : option Z :=
  match Prim2SF x with
  | S754_zero _ => Some 0
  | S754_finite s m e =>
      let n := if 0 <=? e then Z.pos m * 2 ^ e else Z.pos m / 2 ^ (- e) in
      if (0 <=? e) || (Z.pos m mod 2 ^ (- e) =? 0)
      then Some (if s then - n else n)
      else None
  | S754_infinity _ | S754_nan => None
  end.

(** [float(n)] for an integer below 2^63 in absolute value. *)
Definition of_Z (z : Z) : float :=
  if z <? 0 then PrimFloat.opp (PrimFloat.of_uint63 (Uint63.of_Z (- z)))
  else PrimFloat.of_uint63 (Uint63.of_Z z).

(** [fillna(0)], and what [skipna] does to a sum: a NaN counts as 0. *)
Definition fillna0 (x : float) : float :=
  if PrimFloat.is_nan x then 0%float else x.

End Float64.

(** ** Aggregator *)

Module Aggregator.

(** [tmp[tmp['date'].dt.year == year]] under [if year:]. *)
Definition filter_year (y : option Z) (tmp : DataFrame) : DataFrame :=
  match y with
  | Some n => if truthy y then filter (fun t => year (date t) =? n) tmp else tmp
  | None => tmp
  end.

(** [tmp[tmp['date'].dt.month == month]] under [if month:]. *)
Definition filter_month (m : option Z) (tmp : DataFrame) : DataFrame :=
  match m with
  | Some n => if truthy m then filter (fun t => month (date t) =? n) tmp else tmp
  | None => tmp
  end.

Definition filter_period (y m : option Z) (df : DataFrame) : DataFrame :=
  filter_month m (filter_year y df).

(** [tmp[tmp['type'] == k]]. *)
Definition of_type (k : string) (tmp : DataFrame) : DataFrame :=
  filter (fun t => String.eqb (type t) k) tmp.

(** The summary frame: rows (metric, value). *)
Definition Summary := list (string * float).

(** [summary_df[summary_df['metric'] == metric]['value'].values[0]], the way
    the dashboard reads one metric out of a summary. *)
Fixpoint metric_value (metric : string) (s : Summary) : option float :=
  match s with
  | [] => None
  | (name, v) :: rest =>
      if String.eqb name metric then Some v else metric_value metric rest
  end.

(** The summary whose three metrics are all zero. *)
Definition zero_summary : Summary :=
  [("Total Income", 0%float); ("Total Expense", 0%float); ("Balance", 0%float)].

Section SeriesSum.
(** numpy's sum of a float64 array that is not empty.  In which order it
    adds the numbers, and so how the result is rounded, depends on the
    length of the array and on the build of the library. *)
Variable np_sum : list float -> float.

(** [Series.sum()] of the amount column: the sum of no value is 0.0;
    otherwise pandas puts 0 in the place of every NaN ([skipna]) and calls
    numpy. *)
Definition sum_amount (tmp : DataFrame) : float :=
  match tmp with
  | [] => 0%float
  | _ :: _ => np_sum (map (fun t => Float64.fillna0 (amount t)) tmp)
  end.

Definition monthly_summary (df : DataFrame) (y m : option Z) : Summary :=
  if empty df then []
  else
    let tmp := filter_period y m df in
    let income := sum_amount (of_type "income" tmp) in
    let expense := sum_amount (of_type "expense" tmp) in
    let balance := (income - expense)%float in
    [("Total Income", income); ("Total Expense", expense); ("Balance", balance)].
End SeriesSum.

(** The breakdown frame: rows (category, amount). *)
Definition Breakdown := list (string * float).

(** [tmp.groupby('category')['amount'].sum().reset_index()]: one row per
    distinct category, in ascending order of the category (the default
    [sort=True] of [groupby]), carrying the sum of the amounts of the rows
    of that category. *)
Definition group_keys (tmp : DataFrame) : list string :=
  isort String.leb (nodup string_dec (map category tmp)).

Definition of_category (c : string) (tmp : DataFrame) : DataFrame :=
  filter (fun t => String.eqb (category t) c) tmp.

(** What the statements below ask of [sort_values('amount',
    ascending=False)]: it rearranges the rows, losing and adding none.  How
    it orders them, and rows of equal amount in particular, is decided by
    the sort of numpy it calls. *)
Definition sort_values_contract (sort : Breakdown -> Breakdown) : Prop :=
  forall l, Permutation l (sort l).

Section CategoryBreakdown.
(** The sum [groupby(...).sum()] computes for one group, from the amounts
    of the rows of the group in frame order. *)
Variable group_sum : list float -> float.
(** The library sort the function calls. *)
Variable sort_values_desc : Breakdown -> Breakdown.

Definition groupby_sum (tmp : DataFrame) : Breakdown :=
  map (fun c => (c, group_sum (map amount (of_category c tmp)))) (group_keys tmp).

Definition category_breakdown (df : DataFrame) (y m : option Z)
           (tx_type : string) : Breakdown :=
  if empty df then []
  else
    let tmp := filter_period y m df in
    let tmp := of_type tx_type tmp in
    sort_values_desc (groupby_sum tmp).
End CategoryBreakdown.

End Aggregator.

(** ** Text helpers *)

Module Text.

(** The decimal digits of a natural number. *)
Definition digits (n : N) : string := DecimalString.NilZero.string_of_uint (N.to_uint n).

Fixpoint zeros (k : nat) : string :=
  match k with O => "" | S k' => String "0" (zeros k') end.

(** The digits, with zeros on the left up to [width] characters. *)
Definition pad (width : nat) (n : N) : string :=
  let s := digits n in zeros (width - String.length s) ++ s.

(** [str(d)] of a [datetime.date]: ISO-8601, [YYYY-MM-DD]. *)
Definition str_date (d : Date) : string :=
  pad 4 (Z.to_N (year d)) ++ "-" ++ pad 2 (Z.to_N (month d)) ++ "-" ++ pad 2 (Z.to_N (day d)).

(** The format spec [.2f]: the exact value of the float, rounded to
    hundredths with ties to even, under the sign of the float; [nan] and
    [inf] for the values that are not finite. *)
Definition round_half_even (num den : Z) : Z :=
  let q := num / den in
  let r := num mod den in
  if 2 * r <? den then q
  else if den <? 2 * r then q + 1
  else if Z.even q then q else q + 1.

Definition fixed2 (negative : bool) (num den : Z) : string :=
  let n := round_half_even (num * 100) den in
  (if negative then "-" else "")
  ++ digits (Z.to_N (n / 100)) ++ "." ++ pad 2 (Z.to_N (n mod 100)).

Definition fmt2f (v : float) : string :=
  match Prim2SF v with
  | S754_zero s => fixed2 s 0 1
  | S754_finite s m e =>
      if 0 <=? e then fixed2 s (Z.pos m * 2 ^ e) 1 else fixed2 s (Z.pos m) (2 ^ (- e))
  | S754_infinity s => (if s then "-" else "") ++ "inf"
  | S754_nan => "nan"
  end.

(** A byte that continues a character of a UTF-8 text: [10xxxxxx]. *)
Definition continuation (c : ascii) : bool :=
  let n := N_of_ascii c in ((128 <=? n) && (n <? 192))%N.

(** [s[:n]]: the first [n] characters, each with all its bytes. *)
Fixpoint first_chars (n : nat) (s : string) : string :=
  match s with
  | EmptyString => EmptyString
  | String c r =>
      if continuation c then String c (first_chars n r)
      else match n with
           | O => EmptyString
           | S k => String c (first_chars k r)
           end
  end.

(** The characters of a text, each as its bytes. *)
Fixpoint chars (s : string) : list string :=
  match s with
  | EmptyString => []
  | String c r =>
      match chars r with
      | String d g :: rest =>
          if continuation d then String c (String d g) :: rest
          else String c EmptyString :: String d g :: rest
      | rest => String c EmptyString :: rest
      end
  end.

(** [str.isspace()] of one character: U+0009 to U+000D, U+001C to U+0020,
    U+0085, U+00A0, U+1680, U+2000 to U+200A, U+2028, U+2029, U+202F, U+205F
    and U+3000. *)
Definition isspace (ch : string) : bool :=
  match map N_of_ascii (list_ascii_of_string ch) with
  | [n] => ((9 <=? n) && (n <=? 13) || (28 <=? n) && (n <=? 32))%N
  | [194; n] => ((n =? 133) || (n =? 160))%N
  | [225; 154; 128] => true
  | [226; 128; n] =>
      ((128 <=? n) && (n <=? 138) || (n =? 168) || (n =? 169) || (n =? 175))%N
  | [226; 129; 159] => true
  | [227; 128; 128] => true
  | _ => false
  end%N.

Fixpoint lstrip (l : list string) : list string :=
  match l with
  | [] => []
  | ch :: r => if isspace ch then lstrip r else l
  end.

(** [s.strip()]. *)
Definition strip (s : string) : string :=
  String.concat "" (rev (lstrip (rev (lstrip (chars s))))).

(** Can [s.encode('latin-1')] be done?  Every character must lie below
    U+0100, that is be one byte below 128, or two bytes of which the first
    is 194 or 195. *)
Definition latin1_byte (c : ascii) : bool :=
  let n := N_of_ascii c in ((n <? 192) || (n =? 194) || (n =? 195))%N.

Fixpoint latin1 (s : string) : bool :=
  match s with
  | EmptyString => true
  | String c r => latin1_byte c && latin1 r
  end.

(** [s.endswith(suffix)]. *)
Definition endswith (s suffix : string) : bool :=
  let n := String.length s in
  let k := String.length suffix in
  (k <=? n)%nat && String.eqb (substring (n - k) k s) suffix.

(** [sep.join(items)]. *)
Definition join (sep : string) (items : list string) : string :=
  String.concat sep items.

End Text.

(** ** Store *)

Module Database.

(** The [transactions] table, rows in insertion order, and the largest id
    handed out so far ([AUTOINCREMENT]). *)
Record Store := mkStore { table : list Transaction; last_id : Z }.

Definition init_db : Store := mkStore [] 0.

(** The number a [REAL] column gives back for the number written to it.
    SQLite keeps a number without fraction as an integer where it can, which
    turns -0.0 into 0.0; every other number comes back as it was. *)
Definition real_value (x : float) : float :=
  if PrimFloat.eqb x 0 then 0%float else x.

(** One [INSERT] with the id assigned by the table.  SQLite binds a NaN as
    [NULL], which the [NOT NULL] of the amount column refuses: [None] is
    that exception. *)
Definition add_transaction (s : Store) (tx_type category : string) (amt : float)
           (cur : string) (tx_date : Date) (nts : string) : option Store :=
  if PrimFloat.is_nan amt then None
  else
    let i := last_id s + 1 in
    Some (mkStore (table s ++ [mkTx i tx_type category (real_value amt) cur tx_date
                                    (Some nts)]) i).

(** Lexicographic comparison of dates, which is the comparison of their
    ISO-8601 texts. *)
Definition date_compare (a b : Date) : comparison :=
  match year a ?= year b with
  | Eq => match month a ?= month b with
          | Eq => day a ?= day b
          | c => c
          end
  | c => c
  end.

(** [ORDER BY date DESC, id DESC]: does row [a] come no later than [b]? *)
Definition newest_first (a b : Transaction) : bool :=
  match date_compare (date a) (date b) with
  | Gt => true
  | Lt => false
  | Eq => id b <=? id a
  end.

Definition load_transactions (s : Store) : DataFrame :=
  isort newest_first (table s).





End Database.

(** ** Report renderer *)

Module Renderer.
Import Aggregator.

(** The calls made on the [FPDF] object.  The pages are the sequence of
    these calls; how the library lays them out is not modelled. *)
Record cell_args := mkCell {
  w : Z; h : Z; txt : string; border : Z; ln : bool; align : string; fill : bool
}.

Inductive pdf_op :=
| SetAutoPageBreak (auto : bool) (margin : Z)
| AddPage
| SetFont (family style : string) (size : Z)
| SetTextColor (r g b : Z)
| SetFillColor (r g b : Z)
| Cell (c : cell_args)
| Ln (height : Z).

(** Until its last statement the renderer only ever writes to the [pdf]
    object, so its effect is the list of calls it adds: a writer monad. *)
Definition PDF (A : Type) : Type := A * list pdf_op.

Definition ret {A} (a : A) : PDF A := (a, []).

Definition bind {A B} (m : PDF A) (f : A -> PDF B) : PDF B :=
  let (b, out) := f (fst m) in (b, (snd m ++ out)%list).

Definition emit (op : pdf_op) : PDF unit := (tt, [op]).

Definition calls {A} (m : PDF A) : list pdf_op := snd m.

Notation "m1 ;; m2" := (bind m1 (fun _ => m2))
  (at level 61, right associativity).

(** [for x in xs: body(x)]. *)
Fixpoint for_each {A} (xs : list A) (body : A -> PDF unit) : PDF unit :=
  match xs with
  | [] => ret tt
  | x :: rest => body x ;; for_each rest body
  end.

Definition set_auto_page_break auto margin := emit (SetAutoPageBreak auto margin).
Definition add_page := emit AddPage.
Definition set_font family style size := emit (SetFont family style size).
Definition set_text_color (c : Z * Z * Z) :=
  let '(r, g, b) := c in emit (SetTextColor r g b).
Definition set_fill_color (c : Z * Z * Z) :=
  let '(r, g, b) := c in emit (SetFillColor r g b).
Definition ln_ height := emit (Ln height).

(** [pdf.cell(w, h, txt, ln=True)] and its variants; the defaults of
    [FPDF.cell] are border 0, ln 0, align '' and fill False. *)
Definition cell_ln w h txt := emit (Cell (mkCell w h txt 0 true "" false)).
Definition cell_ln_center w h txt := emit (Cell (mkCell w h txt 0 true "C" false)).
Definition cell_head w h txt (ln : bool) := emit (Cell (mkCell w h txt 1 ln "" true)).
Definition cell_box w h txt (ln : bool) := emit (Cell (mkCell w h txt 1 ln "" false)).

Definition green : Z * Z * Z := (0, 128, 0).
Definition red : Z * Z * Z := (255, 0, 0).
Definition black : Z * Z * Z := (0, 0, 0).

(** The colour of one summary line (the body of the first loop):
    [row['value'] >= 0] is the float64 comparison, false for a NaN. *)
Definition metric_color (row : string * float) : Z * Z * Z :=
  if String.eqb (fst row) "Balance"
  then (if PrimFloat.leb 0 (snd row) then green else red)
  else black.

Definition summary_line (cur : string) (row : string * float) : PDF unit :=
  set_text_color (metric_color row) ;;
  cell_ln 0 8 (fst row ++ ": " ++ Text.fmt2f (snd row) ++ " " ++ cur).

(** The nested function of the source. *)
Definition add_category_breakdown (category_df : Breakdown) (cur : string) : PDF unit :=
  set_font "Arial" "B" 14 ;;
  cell_ln 0 10 "Category Breakdown" ;;
  ln_ 5 ;;
  set_font "Arial" "" 11 ;;
  if empty category_df
  then cell_ln 0 8 "No category data available."
  else for_each category_df (fun r =>
         cell_ln 0 7 (fst r ++ ": " ++ Text.fmt2f (snd r) ++ " " ++ cur)).

(** The header row and one body row of the transaction table. *)
Definition table_header (cur : string) : PDF unit :=
  set_fill_color (102, 126, 234) ;;
  set_text_color (255, 255, 255) ;;
  cell_head 30 8 "Date" false ;;
  cell_head 25 8 "Type" false ;;
  cell_head 50 8 "Category" false ;;
  cell_head 30 8 ("Amount (" ++ cur ++ ")") true.

Definition table_row (r : Transaction) : PDF unit :=
  cell_box 30 7 (Text.str_date (date r)) false ;;
  cell_box 25 7 (type r) false ;;
  cell_box 50 7 (Text.first_chars 30 (category r)) false ;;
  cell_box 30 7 (Text.fmt2f (amount r)) true.

Definition recent_transactions (df : DataFrame) (cur : string) : PDF unit :=
  add_page ;;
  set_font "Arial" "B" 14 ;;
  cell_ln 0 10 "Recent Transactions" ;;
  ln_ 5 ;;
  if empty df
  then cell_ln 0 8 "No transactions to show."
  else
    table_header cur ;;
    set_text_color black ;;
    for_each (firstn 20 df) table_row.

Definition report_head (summary_df : Summary) (period_name cur : string) : PDF unit :=
  set_auto_page_break true 15 ;;
  add_page ;;
  set_font "Arial" "B" 20 ;;
  set_text_color (102, 126, 234) ;;
  cell_ln_center 0 15 ("Budget Report - " ++ period_name) ;;
  ln_ 10 ;;
  set_font "Arial" "B" 14 ;;
  set_text_color black ;;
  cell_ln 0 10 "Financial Summary" ;;
  ln_ 5 ;;
  set_font "Arial" "" 12 ;;
  for_each summary_df (summary_line cur) ;;
  ln_ 10 ;;
  set_text_color black.

(** The texts of the cells of a document, in order. *)
Definition cell_texts (doc : list pdf_op) : list string :=
  flat_map (fun op => match op with Cell c => [txt c] | _ => [] end) doc.

(** The last statement, [pdf.output(dest='S').encode('latin-1')]: the
    pages are written out in Latin-1, which raises [UnicodeEncodeError]
    ([None]) when a text put in a cell has a character outside Latin-1.
    The document returned is given by the calls that built it. *)
Definition output (doc : list pdf_op) : option (list pdf_op) :=
  if forallb Text.latin1 (cell_texts doc) then Some doc else None.

(** [create_pdf_report]: the document, or [None] for the exception of the
    last statement. *)
Definition create_pdf_report (df : DataFrame) (summary_df : Summary)
           (category_df : Breakdown) (period_name cur : string)
  : option (list pdf_op) :=
  output (calls (report_head summary_df period_name cur ;;
                 add_category_breakdown category_df cur ;;
                 recent_transactions df cur)).

(** One line of text across the page, and the cells of the table. *)
Definition text_line (height : Z) (s : string) : pdf_op :=
  Cell (mkCell 0 height s 0 true "" false).

Definition header_cells (cur : string) : list pdf_op :=
  [Cell (mkCell 30 8 "Date" 1 false "" true);
   Cell (mkCell 25 8 "Type" 1 false "" true);
   Cell (mkCell 50 8 "Category" 1 false "" true);
   Cell (mkCell 30 8 ("Amount (" ++ cur ++ ")") 1 true "" true)].

Definition row_cells (r : Transaction) : list pdf_op :=
  [Cell (mkCell 30 7 (Text.str_date (date r)) 1 false "" false);
   Cell (mkCell 25 7 (type r) 1 false "" false);
   Cell (mkCell 50 7 (Text.first_chars 30 (category r)) 1 false "" false);
   Cell (mkCell 30 7 (Text.fmt2f (amount r)) 1 true "" false)].

End Renderer.

(** ** Import validator and bulk insert *)

Module Upload.
Import Database.

(** A column of an uploaded table, by pandas dtype: a numeric column
    (a missing cell is NaN), a column of dates (a missing cell is NaT) or an
    object column of strings (a missing cell is NaN).  A missing number is
    written [None]; a [Some] holding a NaN is read as missing too.  An
    object column that mixes strings with other Python values, which only a
    spreadsheet can produce, has no counterpart here. *)
Inductive Series :=
| Numbers (xs : list (option float))
| Dates (xs : list (option Date))
| Objects (xs : list (option string)).

(** An uploaded table: its columns in file order, by name. *)
Definition Table := list (string * Series).

Definition columns (df : Table) : list string := map fst df.

(** [df[col]]: [None] stands for the [KeyError]. *)
Fixpoint column (df : Table) (col : string) : option Series :=
  match df with
  | [] => None
  | (name, s) :: rest => if String.eqb name col then Some s else column rest col
  end.

(** [df[col] = s]: replaces the column in place, or adds it last. *)
Fixpoint set_column (df : Table) (col : string) (s : Series) : Table :=
  match df with
  | [] => [(col, s)]
  | (name, old) :: rest =>
      if String.eqb name col then (name, s) :: rest
      else (name, old) :: set_column rest col s
  end.

Definition series_length (s : Series) : nat :=
  match s with
  | Numbers xs => List.length xs
  | Dates xs => List.length xs
  | Objects xs => List.length xs
  end.

(** [len(df)]. *)
Definition len (df : Table) : nat :=
  match df with [] => O | (_, s) :: _ => series_length s end.

Record UploadedFile := mkFile { name : string; content : string }.

Definition required_cols : list string :=
  ["type"; "category"; "amount"; "currency"; "date"].

(** [col in df.columns]. *)
Definition has_column (df : Table) (col : string) : bool :=
  existsb (String.eqb col) (columns df).

Definition missing_cols (df : Table) : list string :=
  filter (fun col => negb (has_column df col)) required_cols.

Notation "x <- m ;; k" := (match m with Some x => k | None => None end)
  (at level 61, m at next level, right associativity).

Section Validator.
(** The pandas readers: the decoded table, or the message of the exception
    they raise. *)
Variable read_csv read_excel : string -> string + Table.
(** [pd.to_numeric(s)] and [pd.to_datetime(s).dt.date]: the converted
    column, or [None] when the call raises. *)
Variable to_numeric : Series -> option (list (option float)).
Variable to_datetime_date : Series -> option (list (option Date)).

(** The first [if]/[elif]/[else]: which reader the file name selects. *)
Definition read_table (f : UploadedFile) : option (string + Table) :=
  if Text.endswith (name f) ".csv" then Some (read_csv (content f))
  else if Text.endswith (name f) ".xlsx" then Some (read_excel (content f))
  else None.

(** The inner [try] block; [None] is any exception raised inside it. *)
Definition coerce_types (df : Table) : option Table :=
  a <- column df "amount" ;;
  amt <- to_numeric a ;;
  let df := set_column df "amount" (Numbers amt) in
  d <- column df "date" ;;
  dts <- to_datetime_date d ;;
  Some (set_column df "date" (Dates dts)).

Definition process_uploaded_file (f : UploadedFile) : option Table * string :=
  match read_table f with
  | None => (None, "Unsupported file format. Please upload CSV or Excel file.")
  | Some (inl e) => (None, "Error processing file: " ++ e)
  | Some (inr df) =>
      if negb (empty (missing_cols df))
      then (None, "Missing required columns: " ++ Text.join ", " (missing_cols df))
      else
        match coerce_types df with
        | None => (None, "Invalid data types in amount or date columns")
        | Some df' => (Some df', "File processed successfully!")
        end
  end.
End Validator.

(** *** [DataFrame.to_sql('transactions', conn, if_exists='append',
        index=False)] *)

Definition table_columns : list string :=
  ["id"; "type"; "category"; "amount"; "currency"; "date"; "notes"].

Section BulkInsert.
(** The text SQLite stores when a number is written to a [TEXT] column. *)
Variable sqlite_text : float -> string.

(** The value bound for row [i] of a column of [TEXT] affinity; the inner
    [None] is SQL [NULL]. *)
Definition text_at (s : Series) (i : nat) : option (option string) :=
  match s with
  | Objects xs => nth_error xs i
  | Numbers xs => x <- nth_error xs i ;; Some (option_map sqlite_text x)
  | Dates xs => x <- nth_error xs i ;; Some (option_map Text.str_date x)
  end.

(** A [NOT NULL] text column: the column must be there and the cell not
    [NULL], or SQLite rejects the row. *)
Definition required_text (df : Table) (col : string) (i : nat) : option string :=
  s <- column df col ;;
  v <- text_at s i ;;
  v.

(** The [amount] and [date] columns, as [process_uploaded_file] leaves
    them: numbers and dates.  A NaN or NaT is written as [NULL] and
    rejected; a frame with another dtype there is not one the validator
    returns, and is rejected here too. *)
Definition required_real (df : Table) (i : nat) : option float :=
  s <- column df "amount" ;;
  match s with
  | Numbers xs =>
      x <- nth_error xs i ;;
      v <- x ;;
      if PrimFloat.is_nan v then None else Some v
  | _ => None
  end.

Definition required_date (df : Table) (i : nat) : option Date :=
  s <- column df "date" ;;
  match s with
  | Dates xs => x <- nth_error xs i ;; x
  | _ => None
  end.

Definition optional_text (df : Table) (col : string) (i : nat) : option (option string) :=
  match column df col with
  | None => Some None
  | Some s => text_at s i
  end.

(** The id of row [i]: the one the frame carries, when it has an [id]
    column with an integer there that the table does not hold yet, or the
    next one of the table. *)
Definition row_id (s : Store) (df : Table) (i : nat) : option Z :=
  match column df "id" with
  | None => Some (last_id s + 1)
  | Some (Numbers xs) =>
      x <- nth_error xs i ;;
      match x with
      | None => Some (last_id s + 1)
      | Some q =>
          if PrimFloat.is_nan q then Some (last_id s + 1)
          else
            z <- Float64.to_integer q ;;
            if negb (existsb (fun t => id t =? z) (table s)) then Some z else None
      end
  | Some _ => None
  end.

Definition insert_row (df : Table) (s : Store) (i : nat) : option Store :=
  k <- row_id s df i ;;
  ty <- required_text df "type" i ;;
  cat <- required_text df "category" i ;;
  amt <- required_real df i ;;
  cur <- required_text df "currency" i ;;
  d <- required_date df i ;;
  nts <- optional_text df "notes" i ;;
  Some (mkStore (table s ++ [mkTx k ty cat (real_value amt) cur d nts])
                (Z.max (last_id s) k)).

Fixpoint insert_rows (df : Table) (s : Store) (rows : list nat) : option Store :=
  match rows with
  | [] => Some s
  | i :: rest => s' <- insert_row df s i ;; insert_rows df s' rest
  end.

(** All rows go in within one transaction, or none does; [None] is the
    exception of the failed insert. *)
Definition bulk_insert_transactions (s : Store) (transactions_df : Table) : option Store :=
  if forallb (fun c => existsb (String.eqb c) table_columns) (columns transactions_df)
  then insert_rows transactions_df s (seq 0 (len transactions_df))
  else None.
End BulkInsert.

(** The sidebar flow around the two functions, once the user presses
    "Import Transactions": the upload is validated and, on success, the
    frame is inserted.  Either the validator's message is shown as an error,
    or the rows are in the store and their number is reported, or the
    insert raised and the store is as it was. *)
Inductive import_outcome :=
| Rejected (message : string)
| Imported (s : Store) (count : nat)
| InsertFailed.

Definition import_file
           (read_csv read_excel : string -> string + Table)
           (to_numeric : Series -> option (list (option float)))
           (to_datetime_date : Series -> option (list (option Date)))
           (sqlite_text : float -> string)
           (s : Store) (f : UploadedFile) : import_outcome :=
  match process_uploaded_file read_csv read_excel to_numeric to_datetime_date f with
  | (Some processed_df, _) =>
      match bulk_insert_transactions sqlite_text s processed_df with
      | Some s' => Imported s' (len processed_df)
      | None => InsertFailed
      end
  | (None, message) => Rejected message
  end.

(** The invariants the specification gives for a stored transaction;
    [amount >= 0] is the float64 comparison. *)
Definition valid_transaction (t : Transaction) : Prop :=
  PrimFloat.leb 0 (amount t) = true /\
  (type t = "income" \/ type t = "expense") /\ category t <> "".

(** Position of a column in a list of names, and the order of
    [required_cols]. *)
Fixpoint index_of (c : string) (l : list string) : nat :=
  match l with
  | [] => O
  | x :: r => if String.eqb x c then O else S (index_of c r)
  end.

Definition before (a b : string) : Prop :=
  (index_of a required_cols < index_of b required_cols)%nat.

End Upload.

(** ** Sample inputs *)

Module Samples.
Import Aggregator Upload Database.

(** The scenario of the specification, with store ids 1 to 3. *)
Definition scenario : DataFrame :=
  [ mkTx 1 "income" "Salary" 50000 "PKR" (mkDate 2024 1 5) None;
    mkTx 2 "expense" "Rent" 15000 "PKR" (mkDate 2024 1 10) None;
    mkTx 3 "expense" "Groceries" 8000 "PKR" (mkDate 2024 2 1) None ].

(** Four rows of 2^1023 (about 8.99e307) each: two of them add up to more
    than the largest float64. *)
Definition overflow : DataFrame :=
  [ mkTx 1 "income" "Sale" 0x1p1023 "PKR" (mkDate 2024 1 5) None;
    mkTx 2 "income" "Sale" 0x1p1023 "PKR" (mkDate 2024 1 6) None;
    mkTx 3 "expense" "Purchase" 0x1p1023 "PKR" (mkDate 2024 1 7) None;
    mkTx 4 "expense" "Purchase" 0x1p1023 "PKR" (mkDate 2024 1 8) None ].

(** The word Cafe written with an e acute (U+00E9), and the same followed
    by a space and the euro sign (U+20AC): the e acute is in Latin-1, the
    euro sign is not. *)
Definition cafe : string := "Caf" ++ String "195" (String "169" "").

Definition cafe_euro : string :=
  cafe ++ " " ++ String "226" (String "130" (String "172" "")).

Definition accented : DataFrame :=
  [ mkTx 1 "expense" cafe_euro 250 "PKR" (mkDate 2024 1 5) None ].

(** A category of 36 characters, in 37 bytes. *)
Definition long_name : string := cafe ++ " and restaurants in the old town".

Definition long_row : Transaction :=
  mkTx 7 "expense" long_name 250 "PKR" (mkDate 2024 1 5) None.

(** Stand-ins for the library calls, used to run the functions on concrete
    inputs: a sum that adds from left to right, starting from 0 (on the
    sample frames every order of adding gives the same float); a sort by
    amount, largest first; a reader that decodes every content to one given
    table; a [to_numeric] that reads signed decimal integers; a
    [to_datetime] that reads [YYYY-MM-DD]; and a number-to-text
    conversion. *)
Definition add_in_order (xs : list float) : float :=
  fold_left PrimFloat.add xs 0%float.

Definition amount_geb (a b : string * float) : bool := PrimFloat.leb (snd b) (snd a).

Definition sort_values_stable (l : Breakdown) : Breakdown :=
  isort amount_geb l.

Definition reads (t : Table) : string -> string + Table := fun _ => inr t.

Definition all_some {A} (xs : list (option A)) : option (list A) :=
  fold_right (fun x acc => match x, acc with
                           | Some a, Some l => Some (a :: l)
                           | _, _ => None
                           end) (Some []) xs.

Definition number_of_text (s : string) : option float :=
  option_map (fun i => Float64.of_Z (Z.of_int i)) (DecimalString.NilZero.int_of_string s).

Definition to_numeric (s : Series) : option (list (option float)) :=
  match s with
  | Numbers xs => Some xs
  | Objects xs =>
      all_some (map (fun x => match x with
                              | None => Some None
                              | Some t => option_map Some (number_of_text t)
                              end) xs)
  | Dates _ => None
  end.

Definition field (s : string) (start n : nat) : option Z :=
  option_map Z.of_uint (DecimalString.NilZero.uint_of_string (substring start n s)).

Definition date_of_text (s : string) : option Date :=
  if (String.length s =? 10)%nat
     && String.eqb (substring 4 1 s) "-" && String.eqb (substring 7 1 s) "-"
  then match field s 0 4, field s 5 2, field s 8 2 with
       | Some y, Some m, Some d => Some (mkDate y m d)
       | _, _, _ => None
       end
  else None.

Definition to_datetime_date (s : Series) : option (list (option Date)) :=
  match s with
  | Dates xs => Some xs
  | Objects xs =>
      all_some (map (fun x => match x with
                              | None => Some None
                              | Some t => option_map Some (date_of_text t)
                              end) xs)
  | Numbers _ => None
  end.

Definition sqlite_text (q : float) : string := Text.fmt2f q.

(** A table without the amount and currency columns. *)
Definition no_amount_currency : Table :=
  [ ("type", Objects [Some "income"]);
    ("category", Objects [Some "Salary"]);
    ("date", Objects [Some "2024-01-05"]);
    ("notes", Objects [None]) ].

(** A table whose amount is the text [abc]. *)
Definition amount_abc : Table :=
  [ ("type", Objects [Some "income"]);
    ("category", Objects [Some "Salary"]);
    ("amount", Objects [Some "abc"]);
    ("currency", Objects [Some "PKR"]);
    ("date", Objects [Some "2024-01-05"]) ].

(** What a reader returns for the CSV file
    [type,category,amount,currency,date] /
    [transfer,Misc,-5,PKR,2024-01-05]. *)
Definition transfer_csv : string :=
  "type,category,amount,currency,date" ++ String "010" "transfer,Misc,-5,PKR,2024-01-05".

Definition transfer_table : Table :=
  [ ("type", Objects [Some "transfer"]);
    ("category", Objects [Some "Misc"]);
    ("amount", Numbers [Some (-5)%float]);
    ("currency", Objects [Some "PKR"]);
    ("date", Objects [Some "2024-01-05"]) ].

End Samples.

(** ** Dashboard code around the core functions *)

Module Shell.
Import Aggregator Database Renderer.

Definition month_names : list string :=
  ["All"; "January"; "February"; "March"; "April"; "May"; "June"; "July";
   "August"; "September"; "October"; "November"; "December"].

(** [l[i]] for a Python list: a negative index counts from the end, and
    [None] stands for the [IndexError]. *)
Definition py_index {A : Type} (l : list A) (i : Z) : option A :=
  let n := Z.of_nat (List.length l) in
  if (0 <=? i) && (i <? n) then nth_error l (Z.to_nat i)
  else if (- n <=? i) && (i <? 0) then nth_error l (Z.to_nat (n + i))
  else None.

(** [str(n)] of an integer. *)
Definition str_int (n : Z) : string :=
  (if n <? 0 then "-" else "") ++ Text.digits (Z.to_N (Z.abs n)).

(** [s.replace(' ', '_')]. *)
Fixpoint underscores (s : string) : string :=
  match s with
  | EmptyString => EmptyString
  | String c r => String (if Ascii.eqb c " " then "_"%char else c) (underscores r)
  end.

Definition value_of (o : option Z) : Z :=
  match o with Some n => n | None => 0 end.

(** The label of the selected period; [None] is the [IndexError] of
    [month_names[sel_month]]. *)
Definition period_name (sel_year sel_month : option Z) : option string :=
  if truthy sel_year && truthy sel_month then
    match py_index month_names (value_of sel_month) with
    | Some name => Some (name ++ " " ++ str_int (value_of sel_year))
    | None => None
    end
  else if truthy sel_year then Some (str_int (value_of sel_year))
  else Some "All time".

(** What pressing "Generate PDF Report" gives: a warning, or the bytes of
    the report with the name of the download. *)
Inductive export_outcome :=
| NoData
| Report (doc : list pdf_op) (file_name : string).

Section PdfExport.
(** The library calls behind [monthly_summary] and
    [category_breakdown]. *)
Variable np_sum group_sum : list float -> float.
Variable sort_values_desc : Breakdown -> Breakdown.

(** [None] is an exception: the [IndexError] of the label, or the
    [UnicodeEncodeError] of [create_pdf_report]. *)
Definition generate_pdf_report (df : DataFrame) (sel_year sel_month : option Z)
           (currency_choice : string) : option export_outcome :=
  match period_name sel_year sel_month with
  | None => None
  | Some name =>
      let filtered := filter_period sel_year sel_month df in
      if empty filtered then Some NoData
      else
        let summary := monthly_summary np_sum filtered None None in
        let categories :=
          category_breakdown group_sum sort_values_desc filtered None None "expense" in
        match create_pdf_report filtered summary categories name currency_choice with
        | Some pdf_bytes =>
            Some (Report pdf_bytes ("budget_report_" ++ underscores name ++ ".pdf"))
        | None => None
        end
  end.
End PdfExport.

(** The options of the year select box: the years of the stored dates, each
    once, latest first; the current year when nothing is stored. *)
Definition years (now_year : Z) (df : DataFrame) : list Z :=
  isort Z.geb
    (nodup Z.eq_dec (if empty df then [now_year] else map (fun t => year (date t)) df)).

End Shell.

(** ** Charts *)

Module Charts.
Import Aggregator.

Record Trace := mkTrace {
  trace_name : string; xs : list string; ys : list float; line_color : string
}.

Inductive Figure :=
| Annotated (text : string) (title : option string)
| Pie (names : list string) (values : list float) (title : string)
| Lines (traces : list Trace) (title : string).

Definition create_animated_chart (df_cat : Breakdown) (title : string) : Figure :=
  if empty df_cat then Annotated "No data available" (Some title)
  else Pie (map fst df_cat) (map snd df_cat) title.

(** [dt.to_period('M').astype(str)]: [YYYY-MM]. *)
Definition month_year (t : Transaction) : string :=
  Text.pad 4 (Z.to_N (year (date t))) ++ "-" ++ Text.pad 2 (Z.to_N (month (date t))).

(** The index of the pivot: the months of the frame, each once, ascending. *)
Definition pivot_index (df : DataFrame) : list string :=
  isort String.leb (nodup string_dec (map month_year df)).

(** The columns of the pivot: the types of the frame. *)
Definition pivot_columns (df : DataFrame) : list string :=
  isort String.leb (nodup string_dec (map type df)).

Section TrendChart.
(** The sum [groupby(...).sum()] computes for one group. *)
Variable group_sum : list float -> float.

(** One cell of the pivot: the sum of the group, and 0 ([fillna]) where the
    month has no row of the type or the sum is NaN. *)
Definition pivot_value (df : DataFrame) (m ty : string) : float :=
  match filter (fun t => String.eqb (month_year t) m && String.eqb (type t) ty) df with
  | [] => 0%float
  | g => Float64.fillna0 (group_sum (map amount g))
  end.

Definition trace_of (df : DataFrame) (ty name color : string) : list Trace :=
  if existsb (String.eqb ty) (pivot_columns df)
  then [mkTrace name (pivot_index df)
                (map (fun m => pivot_value df m ty) (pivot_index df)) color]
  else [].

Definition create_trend_chart (df : DataFrame) : Figure :=
  if empty df then Annotated "No data available" None
  else Lines (trace_of df "income" "Income" "#2ecc71"
              ++ trace_of df "expense" "Expense" "#e74c3c")%list
             "Monthly Income vs Expense Trend".
End TrendChart.

Definition traces_of (fig : Figure) : list Trace :=
  match fig with Lines ts _ => ts | _ => [] end.

End Charts.

(** ** Notions used to state the further properties *)

Module Invariants.
Import Database Upload.

(** Ids are unique and none exceeds the last one handed out. *)
Definition ids_ok (s : Store) : Prop :=
  NoDup (map id (table s)) /\ Forall (fun t => id t <= last_id s) (table s).

(** Row [a] is listed no later than row [b] under
    [ORDER BY date DESC, id DESC]. *)
Definition newer (a b : Transaction) : Prop :=
  date_compare (date a) (date b) = Gt \/
  (date_compare (date a) (date b) = Eq /\ id b <= id a).

(** The row passes the (year, month) filter. *)
Definition in_period (y m : option Z) (t : Transaction) : bool :=
  (if truthy y then year (date t) =? Shell.value_of y else true)
  && (if truthy m then month (date t) =? Shell.value_of m else true).

(** The type of the row is one of the two the summary adds up. *)
Definition known_type (t : Transaction) : bool :=
  String.eqb (type t) "income" || String.eqb (type t) "expense".

(** Row [i] of the frame has a value in each of the five columns the table
    declares [NOT NULL]. *)
Definition row_complete (sqlite_text : float -> string) (df : Table) (i : nat) : Prop :=
  required_text sqlite_text df "type" i <> None /\
  required_text sqlite_text df "category" i <> None /\
  required_real df i <> None /\
  required_text sqlite_text df "currency" i <> None /\
  required_date df i <> None.

End Invariants.

(** ** The summary as the specification words it

    The three numbers of claim C2, written out from its words with the
    list functions of the library and none of the aggregator above, to be
    compared with what [monthly_summary] returns: the amounts of the
    transactions of one kind that pass the (year, month) filter, their sum,
    and the difference of the two sums. *)

Module SummarySpec.

(** A year or month that is not given, or given as 0, selects every row. *)
Definition passes (y m : option Z) (t : Transaction) : bool :=
  match y with
  | Some n => (n =? 0) || (year (date t) =? n)
  | None => true
  end
  && match m with
     | Some n => (n =? 0) || (month (date t) =? n)
     | None => true
     end.

Definition amounts (kind : string) (y m : option Z) (T : DataFrame) : list float :=
  map amount (filter (fun t => passes y m t && String.eqb (type t) kind) T).

(** The sum of a list of amounts the way pandas takes it, given the sum of
    numpy: 0.0 for no amount, and a NaN counted as 0. *)
Definition total (np_sum : list float -> float) (l : list float) : float :=
  match l with
  | [] => 0%float
  | _ :: _ => np_sum (map (fun x => if PrimFloat.is_nan x then 0%float else x) l)
  end.

End SummarySpec.

(** ** Further sample inputs *)

Module MoreSamples.
Import Database Upload.

(** The scenario with one more row, whose type is neither income nor
    expense. *)
Definition with_transfer : DataFrame :=
  (Samples.scenario ++ [mkTx 4 "transfer" "Savings" 1000 "PKR" (mkDate 2024 2 3) None])%list.

(** A validated frame of two rows, and one whose second category is
    blank. *)
Definition two_rows : Table :=
  [ ("type", Objects [Some "income"; Some "expense"]);
    ("category", Objects [Some "Salary"; Some "Rent"]);
    ("amount", Numbers [Some 50000%float; Some 15000%float]);
    ("currency", Objects [Some "PKR"; Some "PKR"]);
    ("date", Dates [Some (mkDate 2024 1 5); Some (mkDate 2024 1 10)]) ].

Definition blank_category : Table :=
  [ ("type", Objects [Some "income"; Some "expense"]);
    ("category", Objects [Some "Salary"; None]);
    ("amount", Numbers [Some 50000%float; Some 15000%float]);
    ("currency", Objects [Some "PKR"; Some "PKR"]);
    ("date", Dates [Some (mkDate 2024 1 5); Some (mkDate 2024 1 10)]) ].

Definition stored : Store := mkStore Samples.scenario 3.

(** The Income line of the trend chart of the scenario. *)
Definition income_line : Charts.Trace :=
  Charts.mkTrace "Income" ["2024-01"; "2024-02"] [50000%float; 0%float] "#2ecc71".

End MoreSamples.
(** * Properties *)

(** ** Sorting *)

Section InsertionSortFacts.
Context {A : Type} (leb : A -> A -> bool).

Lemma insert_perm x l : Permutation (x :: l) (insert leb x l).
Proof.
  induction l as [|y r IH]; simpl; [reflexivity|].
  destruct (leb x y); [reflexivity|].
  rewrite perm_swap. now apply perm_skip.
Qed.

Lemma isort_perm l : Permutation l (isort leb l).
Proof.
  induction l as [|x r IH]; simpl; [constructor|].
  rewrite <- insert_perm. now apply perm_skip.
Qed.

Hypothesis leb_total : forall a b, leb a b = true \/ leb b a = true.

Lemma insert_sorted x l :
  Sorted (fun a b => leb a b = true) l ->
  Sorted (fun a b => leb a b = true) (insert leb x l).
Proof.
  induction 1 as [|y r Hs IH Hhd]; simpl; [repeat constructor|].
  destruct (leb x y) eqn:E.
  - repeat constructor; assumption.
  - constructor; [exact IH|].
    destruct (leb_total x y) as [Hxy|Hyx]; [congruence|].
    destruct Hhd as [|z r' Hyz]; simpl.
    + now constructor.
    + destruct (leb x z); now constructor.
Qed.

Lemma isort_sorted l : Sorted (fun a b => leb a b = true) (isort leb l).
Proof.
  induction l; simpl; [constructor | now apply insert_sorted].
Qed.

Hypothesis leb_trans :
  forall a b c, leb a b = true -> leb b c = true -> leb a c = true.

Lemma isort_strongly_sorted l :
  StronglySorted (fun a b => leb a b = true) (isort leb l).
Proof.
  apply Sorted_StronglySorted; [|apply isort_sorted].
  intros a b c. apply leb_trans.
Qed.
End InsertionSortFacts.

Lemma StronglySorted_firstn {A} (R : A -> A -> Prop) n l :
  StronglySorted R l -> StronglySorted R (firstn n l).
Proof.
  intros H. revert n. induction H as [|a l Hs IH Hall]; intros [|n]; simpl;
    try constructor; auto.
  apply Forall_forall. intros x Hx.
  rewrite Forall_forall in Hall. apply Hall.
  rewrite <- (firstn_skipn n l). apply in_or_app. now left.
Qed.

Lemma StronglySorted_impl {A} (R S : A -> A -> Prop) l :
  (forall a b, R a b -> S a b) -> StronglySorted R l -> StronglySorted S l.
Proof.
  intros Himp H. induction H as [|a r Hs IH Hall]; constructor; [exact IH|].
  eapply Forall_impl; [|exact Hall]. intros b. apply Himp.
Qed.

Lemma filter_true {A} (l : list A) : filter (fun _ => true) l = l.
Proof. induction l; cbn; congruence. Qed.

Lemma filter_both {A} (f g : A -> bool) (l : list A) :
  filter g (filter f l) = filter (fun x => f x && g x) l.
Proof.
  induction l as [|x r IH]; cbn; [reflexivity|].
  destruct (f x); cbn; [destruct (g x)|]; congruence.
Qed.

(** ** Floating-point comparisons *)

Module Float64Facts.

Lemma SFcompare_refl x : x <> S754_nan -> SFcompare x x = Some Eq.
Proof.
  destruct x as [s|s| |s m e]; intros H; try congruence; cbn.
  - destruct s; reflexivity.
  - destruct s; reflexivity.
  - rewrite Z.compare_refl, Pos.compare_cont_refl. destruct s; reflexivity.
Qed.

Lemma is_nan_spec x : PrimFloat.is_nan x = true <-> Prim2SF x = S754_nan.
Proof.
  unfold PrimFloat.is_nan. rewrite eqb_spec. unfold SFeqb.
  destruct (Prim2SF x) as [s|s| |s m e] eqn:E.
  - rewrite SFcompare_refl by discriminate. cbn. split; discriminate.
  - rewrite SFcompare_refl by discriminate. cbn. split; discriminate.
  - cbn. tauto.
  - rewrite SFcompare_refl by discriminate. cbn. split; discriminate.
Qed.

Lemma Prim2SF_zero : Prim2SF 0 = S754_zero false.
Proof. reflexivity. Qed.



(** [x >= 0] is false exactly when [x < 0] or [x] is NaN. *)
Lemma leb_zero_false v :
  PrimFloat.leb 0 v = false <-> PrimFloat.ltb v 0 = true \/ PrimFloat.is_nan v = true.
Proof.
  rewrite is_nan_spec, leb_spec, ltb_spec, Prim2SF_zero. unfold SFleb, SFltb.
  destruct (Prim2SF v) as [s|s| |s m e]; cbn.
  - split; [discriminate | intros [H|H]; discriminate].
  - destruct s; cbn; split; auto; intros [H|H]; discriminate.
  - split; auto.
  - destruct s; cbn; split; auto; intros [H|H]; discriminate.
Qed.


(** [x == y] on a value compared with itself fails exactly on NaN. *)
Lemma eqb_self x : PrimFloat.eqb x x = negb (PrimFloat.is_nan x).
Proof. unfold PrimFloat.is_nan. now rewrite negb_involutive. Qed.

End Float64Facts.

(** ** Texts *)

Module TextFacts.






Example first_chars_counts_characters :
  Text.first_chars 4 Samples.cafe_euro = Samples.cafe /\
  String.length Samples.cafe = 5%nat.
Proof. split; reflexivity. Qed.

Example latin1_accent_but_not_euro :
  Text.latin1 Samples.cafe = true /\ Text.latin1 Samples.cafe_euro = false.
Proof. split; reflexivity. Qed.

Example strip_unicode_space :
  Text.strip (String "194" (String "160" " Rent  ")) = "Rent".
Proof. reflexivity. Qed.

Example fmt2f_samples :
  Text.fmt2f 15000 = "15000.00" /\ Text.fmt2f 0x1p-3 = "0.12" /\
  Text.fmt2f (-5) = "-5.00" /\ Text.fmt2f PrimFloat.nan = "nan" /\
  Text.fmt2f PrimFloat.infinity = "inf".
Proof. repeat split; reflexivity. Qed.

End TextFacts.

(** ** Properties of the aggregator *)

Module AggregatorFacts.
Import Aggregator.
Import Samples.

Lemma filter_period_nil y m : filter_period y m [] = [].
Proof.
  unfold filter_period, filter_month, filter_year.
  destruct y as [a|], m as [b|]; simpl;
    repeat match goal with |- context [negb ?c] => destruct c; simpl end;
    reflexivity.
Qed.

Lemma filter_year_filter y df :
  filter_year y df
  = filter (fun t => if truthy y then year (date t) =? Shell.value_of y else true) df.
Proof.
  unfold filter_year. destruct y as [a|]; cbn [truthy Shell.value_of];
    [destruct (negb (a =? 0)); [reflexivity|]|]; now rewrite filter_true.
Qed.

Lemma filter_month_filter m df :
  filter_month m df
  = filter (fun t => if truthy m then month (date t) =? Shell.value_of m else true) df.
Proof.
  unfold filter_month. destruct m as [b|]; cbn [truthy Shell.value_of];
    [destruct (negb (b =? 0)); [reflexivity|]|]; now rewrite filter_true.
Qed.

Lemma filter_period_filter y m df :
  filter_period y m df = filter (Invariants.in_period y m) df.
Proof.
  unfold filter_period, Invariants.in_period.
  now rewrite filter_year_filter, filter_month_filter, filter_both.
Qed.

(** The filter of the function selects the rows the specification's
    filter selects. *)
Lemma in_period_passes y m t : Invariants.in_period y m t = SummarySpec.passes y m t.
Proof.
  unfold Invariants.in_period, SummarySpec.passes.
  destruct y as [a|], m as [b|]; cbn [truthy Shell.value_of];
    try destruct (a =? 0); try destruct (b =? 0); reflexivity.
Qed.

Lemma of_type_amounts k y m df :
  map amount (of_type k (filter_period y m df)) = SummarySpec.amounts k y m df.
Proof.
  unfold of_type, SummarySpec.amounts.
  rewrite filter_period_filter, filter_both. f_equal.
  apply filter_ext. intros t. now rewrite in_period_passes.
Qed.

Lemma sum_amount_total np_sum tmp :
  sum_amount np_sum tmp = SummarySpec.total np_sum (map amount tmp).
Proof.
  destruct tmp as [|t r]; [reflexivity|].
  unfold sum_amount, SummarySpec.total. cbn [map]. f_equal.
  unfold Float64.fillna0. f_equal. now rewrite map_map.
Qed.

Example scenario_january :
  monthly_summary add_in_order scenario (Some 2024) (Some 1)
  = [("Total Income", 50000%float); ("Total Expense", 15000%float);
     ("Balance", 35000%float)].
Proof. reflexivity. Qed.

(** C1, as the specification words it, fails: on the empty frame the
    guard [if df.empty] returns the frame with no rows, not three zeros. *)
Lemma monthly_summary_empty_not_zeros :
  monthly_summary add_in_order [] None None = [] /\
  monthly_summary add_in_order [] None None <> zero_summary.
Proof. split; [reflexivity | discriminate]. Qed.

(** C1 (amended): when no row survives the period filter,
    [monthly_summary] returns the all-zeros summary if the input has rows,
    and the summary with no rows if the input is itself empty; it is a total
    function, so never an error. *)
Theorem monthly_summary_empty_filter
        (np_sum : list float -> float) (df : DataFrame) (y m : option Z) :
  filter_period y m df = [] ->
  monthly_summary np_sum df y m
  = match df with [] => [] | _ :: _ => zero_summary end.
Proof.
  intros Hf. unfold monthly_summary.
  destruct df as [|t df']; [reflexivity|].
  cbn [empty]. rewrite Hf. reflexivity.
Qed.

Lemma monthly_summary_empty_filter_witness :
  filter_period (Some 2023) None scenario = [] /\
  monthly_summary add_in_order scenario (Some 2023) None = zero_summary.
Proof.
  split; [reflexivity|].
  apply (monthly_summary_empty_filter add_in_order scenario (Some 2023) None).
  reflexivity.
Defined.

(** On a frame with rows all three metrics are present. *)
Lemma monthly_summary_metrics np_sum (df : DataFrame) (y m : option Z) :
  df <> [] ->
  let tmp := filter_period y m df in
  monthly_summary np_sum df y m
  = [("Total Income", sum_amount np_sum (of_type "income" tmp));
     ("Total Expense", sum_amount np_sum (of_type "expense" tmp));
     ("Balance", (sum_amount np_sum (of_type "income" tmp)
                  - sum_amount np_sum (of_type "expense" tmp))%float)].
Proof.
  intros Hne. destruct df; [congruence | reflexivity].
Qed.

(** C2, as the specification words it, fails: two income rows and two
    expense rows of 2^1023 each give both totals infinite, their difference
    is NaN, and a NaN is equal to nothing: [balance == total_income -
    total_expense] is false. *)
Lemma monthly_summary_balance_nan :
  monthly_summary add_in_order overflow None None
  = [("Total Income", PrimFloat.infinity); ("Total Expense", PrimFloat.infinity);
     ("Balance", PrimFloat.nan)]
  /\ PrimFloat.eqb PrimFloat.nan (PrimFloat.infinity - PrimFloat.infinity) = false.
Proof. split; reflexivity. Qed.

(** C2 (amended): whatever the frame with rows, the (year, month) filter and
    the way numpy adds, the summary returned has three rows: Total Income is
    the sum of the amounts of the 'income' transactions that pass the filter,
    Total Expense the sum of the amounts of the 'expense' ones, and Balance
    the float64 difference of the two; [balance == total_income -
    total_expense] holds unless the balance is NaN.  For the frame with no
    rows the summary has no rows. *)
Theorem monthly_summary_balance
        (np_sum : list float -> float) (df : DataFrame) (y m : option Z) :
  let income := SummarySpec.total np_sum (SummarySpec.amounts "income" y m df) in
  let expense := SummarySpec.total np_sum (SummarySpec.amounts "expense" y m df) in
  monthly_summary np_sum df y m
  = match df with
    | [] => []
    | _ :: _ => [("Total Income", income); ("Total Expense", expense);
                 ("Balance", (income - expense)%float)]
    end
  /\ (forall bal, metric_value "Balance" (monthly_summary np_sum df y m) = Some bal ->
        PrimFloat.eqb bal (income - expense) = negb (PrimFloat.is_nan bal)).
Proof.
  intros income expense.
  assert (E : monthly_summary np_sum df y m
              = match df with
                | [] => []
                | _ :: _ => [("Total Income", income); ("Total Expense", expense);
                             ("Balance", (income - expense)%float)]
                end).
  { destruct df as [|t r]; [reflexivity|].
    rewrite monthly_summary_metrics by discriminate. cbv zeta.
    rewrite !sum_amount_total, !of_type_amounts. reflexivity. }
  split; [exact E|].
  intros bal. rewrite E. destruct df as [|t r]; [discriminate|].
  cbn [metric_value String.eqb Ascii.eqb Bool.eqb]. intros H. injection H as <-.
  apply Float64Facts.eqb_self.
Qed.

Lemma monthly_summary_balance_witness :
  monthly_summary add_in_order scenario (Some 2024) (Some 1)
  = [("Total Income", 50000%float); ("Total Expense", 15000%float);
     ("Balance", 35000%float)]
  /\ PrimFloat.eqb 35000 (50000 - 15000) = true.
Proof.
  split.
  - exact (proj1 (monthly_summary_balance add_in_order scenario (Some 2024) (Some 1))).
  - exact (proj2 (monthly_summary_balance add_in_order scenario (Some 2024) (Some 1))
             35000%float eq_refl).
Defined.

(** *** Category breakdown *)

Lemma sort_values_stable_contract : sort_values_contract sort_values_stable.
Proof. intros l. apply isort_perm. Qed.

Lemma group_keys_In c tmp : In c (group_keys tmp) <-> In c (map category tmp).
Proof.
  unfold group_keys. split; intros H.
  - apply (nodup_In string_dec).
    eapply Permutation_in; [symmetry; apply isort_perm | exact H].
  - eapply Permutation_in; [apply isort_perm|].
    now apply nodup_In.
Qed.

Lemma group_keys_NoDup tmp : NoDup (group_keys tmp).
Proof.
  unfold group_keys.
  eapply Permutation_NoDup; [apply isort_perm | apply NoDup_nodup].
Qed.

Lemma group_keys_sorted tmp : Sorted (fun a b => String.leb a b = true) (group_keys tmp).
Proof. apply isort_sorted, String.leb_total. Qed.

Lemma groupby_sum_keys group_sum tmp :
  map fst (groupby_sum group_sum tmp) = group_keys tmp.
Proof.
  unfold groupby_sum. rewrite map_map. simpl. apply map_id.
Qed.

Lemma groupby_sum_In group_sum c a tmp :
  In (c, a) (groupby_sum group_sum tmp) <->
  In c (map category tmp) /\ a = group_sum (map amount (of_category c tmp)).
Proof.
  unfold groupby_sum. rewrite in_map_iff. split.
  - intros [k [Hk Hin]]. injection Hk as -> <-.
    split; [now apply group_keys_In | reflexivity].
  - intros [Hin ->]. exists c. split; [reflexivity | now apply group_keys_In].
Qed.

(** Under any sort that meets the contract the breakdown is a rearrangement
    of the grouped sums. *)
Lemma category_breakdown_perm group_sum sort df y m k :
  sort_values_contract sort ->
  Permutation (groupby_sum group_sum (of_type k (filter_period y m df)))
              (category_breakdown group_sum sort df y m k).
Proof.
  intros Hc. unfold category_breakdown. destruct df as [|t df'].
  - rewrite filter_period_nil. simpl. constructor.
  - cbn [empty]. apply Hc.
Qed.

Example scenario_breakdown :
  category_breakdown add_in_order sort_values_stable scenario (Some 2024) None "expense"
  = [("Rent", 15000%float); ("Groceries", 8000%float)].
Proof. reflexivity. Qed.

Example missing_kind_breakdown :
  category_breakdown add_in_order sort_values_stable scenario None None "transfer" = [].
Proof. reflexivity. Qed.

End AggregatorFacts.
(** ** Properties of the store *)

Module DatabaseFacts.
Import Database Upload.

Lemma date_compare_Eq a b :
  date_compare a b = Eq <->
  year a = year b /\ month a = month b /\ day a = day b.
Proof.
  unfold date_compare.
  destruct (Z.compare_spec (year a) (year b));
    destruct (Z.compare_spec (month a) (month b));
    destruct (Z.compare_spec (day a) (day b));
    split; intros; try discriminate; try lia; auto.
Qed.

Lemma date_compare_Gt a b :
  date_compare a b = Gt <->
  year b < year a \/
  (year a = year b /\
   (month b < month a \/ (month a = month b /\ day b < day a))).
Proof.
  unfold date_compare.
  destruct (Z.compare_spec (year a) (year b));
    destruct (Z.compare_spec (month a) (month b));
    destruct (Z.compare_spec (day a) (day b));
    split; intros; try discriminate; try lia; auto.
Qed.

Lemma newest_first_spec a b :
  newest_first a b = true <->
  date_compare (date a) (date b) = Gt \/
  (date_compare (date a) (date b) = Eq /\ id b <= id a).
Proof.
  unfold newest_first.
  destruct (date_compare (date a) (date b)); rewrite ?Z.leb_le;
    split; intros; try discriminate; intuition (try discriminate; auto).
Qed.

Lemma newest_first_total a b :
  newest_first a b = true \/ newest_first b a = true.
Proof.
  rewrite !newest_first_spec, !date_compare_Gt, !date_compare_Eq. lia.
Qed.

Lemma newest_first_trans a b c :
  newest_first a b = true -> newest_first b c = true -> newest_first a c = true.
Proof.
  rewrite !newest_first_spec, !date_compare_Gt, !date_compare_Eq. lia.
Qed.

(** [load_transactions] returns every stored row once, newest first. *)
Lemma load_transactions_order (s : Store) :
  Permutation (table s) (load_transactions s) /\
  StronglySorted (fun a b => newest_first a b = true) (load_transactions s).
Proof.
  split; [apply isort_perm|].
  apply isort_strongly_sorted; [apply newest_first_total | apply newest_first_trans].
Qed.



Example add_transaction_amounts :
  real_value (-0)%float = 0%float /\ real_value 50000 = 50000%float /\
  add_transaction init_db "income" "Salary" PrimFloat.nan "PKR" (mkDate 2024 1 5) "" = None.
Proof. repeat split; reflexivity. Qed.


End DatabaseFacts.

(** ** Properties of the report renderer *)

Module RendererFacts.
Import Aggregator Database Renderer.

Lemma calls_bind {A B} (m : PDF A) (k : A -> PDF B) :
  calls (bind m k) = (calls m ++ calls (k (fst m)))%list.
Proof.
  unfold calls, bind. destruct (k (fst m)). reflexivity.
Qed.

Lemma calls_for_each {A} (xs : list A) (body : A -> PDF unit) :
  calls (for_each xs body) = flat_map (fun x => calls (body x)) xs.
Proof.
  induction xs as [|x rest IH]; [reflexivity|].
  cbn [for_each flat_map]. rewrite calls_bind, IH. reflexivity.
Qed.

(** The report is its three blocks, one after the other, handed to the
    last statement. *)
Lemma create_pdf_report_blocks df summary_df category_df period_name cur :
  create_pdf_report df summary_df category_df period_name cur
  = output (calls (report_head summary_df period_name cur)
            ++ calls (add_category_breakdown category_df cur)
            ++ calls (recent_transactions df cur))%list.
Proof.
  unfold create_pdf_report. rewrite !calls_bind. reflexivity.
Qed.



Lemma recent_transactions_rows df cur :
  df <> [] ->
  calls (recent_transactions df cur)
  = ([AddPage; SetFont "Arial" "B" 14; text_line 10 "Recent Transactions"; Ln 5]
     ++ calls (table_header cur)
     ++ [SetTextColor 0 0 0]
     ++ flat_map (fun r => calls (table_row r)) (firstn 20 df))%list.
Proof.
  intros Hne. destruct df as [|t df']; [congruence|].
  unfold recent_transactions. cbn [empty].
  rewrite !calls_bind, calls_for_each. reflexivity.
Qed.

Lemma report_head_calls summary_df period_name cur :
  calls (report_head summary_df period_name cur)
  = ([SetAutoPageBreak true 15; AddPage; SetFont "Arial" "B" 20;
      SetTextColor 102 126 234;
      Cell (mkCell 0 15 ("Budget Report - " ++ period_name) 0 true "C" false);
      Ln 10; SetFont "Arial" "B" 14; SetTextColor 0 0 0;
      text_line 10 "Financial Summary"; Ln 5; SetFont "Arial" "" 12]
     ++ flat_map (fun row => calls (summary_line cur row)) summary_df
     ++ [Ln 10; SetTextColor 0 0 0])%list.
Proof.
  unfold report_head. rewrite !calls_bind, calls_for_each. reflexivity.
Qed.





Example empty_report_texts :
  option_map cell_texts
    (create_pdf_report [] (monthly_summary Samples.add_in_order [] None None) []
       "All time" "PKR")
  = Some ["Budget Report - All time"; "Financial Summary"; "Category Breakdown";
          "No category data available."; "Recent Transactions";
          "No transactions to show."].
Proof. reflexivity. Qed.

(** The texts of the table: the header row, then one row of four cells per
    transaction. *)
Lemma table_header_texts cur :
  cell_texts (calls (table_header cur))
  = ["Date"; "Type"; "Category"; "Amount (" ++ cur ++ ")"].
Proof. reflexivity. Qed.

Lemma table_row_calls r : calls (table_row r) = row_cells r.
Proof. reflexivity. Qed.

Lemma table_header_calls cur :
  calls (table_header cur)
  = (SetFillColor 102 126 234 :: SetTextColor 255 255 255 :: header_cells cur).
Proof. reflexivity. Qed.

Example scenario_report_texts :
  option_map cell_texts
    (create_pdf_report Samples.scenario
       (monthly_summary Samples.add_in_order Samples.scenario None None) []
       "All time" "PKR")
  = Some ["Budget Report - All time"; "Financial Summary";
          "Total Income: 50000.00 PKR"; "Total Expense: 23000.00 PKR";
          "Balance: 27000.00 PKR"; "Category Breakdown";
          "No category data available."; "Recent Transactions";
          "Date"; "Type"; "Category"; "Amount (PKR)";
          "2024-01-05"; "income"; "Salary"; "50000.00";
          "2024-01-10"; "expense"; "Rent"; "15000.00";
          "2024-02-01"; "expense"; "Groceries"; "8000.00"].
Proof. reflexivity. Qed.

(** C7, as the specification words it, fails twice.  The fourth header is
    not the fixed text "Amount", it carries the currency label.  And not
    every non-empty frame gets a table: for a transaction whose category
    ends in a euro sign ([Samples.cafe_euro]) the last statement raises
    [UnicodeEncodeError], the euro sign not being in Latin-1, and no document
    is returned. *)
Lemma create_pdf_report_table_not_as_worded :
  cell_texts (calls (table_header "PKR")) = ["Date"; "Type"; "Category"; "Amount (PKR)"] /\
  cell_texts (calls (table_header "PKR")) <> ["Date"; "Type"; "Category"; "Amount"] /\
  (exists doc,
     create_pdf_report Samples.scenario
       (monthly_summary Samples.add_in_order Samples.scenario None None) []
       "All time" "PKR" = Some doc /\
     ~ In "Amount" (cell_texts doc)) /\
  map category Samples.accented = [Samples.cafe_euro] /\
  Text.latin1 Samples.cafe_euro = false /\
  create_pdf_report Samples.accented
    (monthly_summary Samples.add_in_order Samples.accented None None) []
    "All time" "PKR" = None.
Proof.
  split; [reflexivity|]. split; [discriminate|]. split; [|repeat split; reflexivity].
  eexists. split; [vm_compute; reflexivity|].
  vm_compute. intros H. repeat (destruct H as [H|H]; [discriminate|]). exact H.
Qed.

(** C7 (amended): for every non-empty frame the calls [create_pdf_report]
    makes end with the transaction page: the header row Date, Type,
    Category, Amount (currency label), then exactly one row per transaction
    of the first 20 of the input, in input order, with the category cut to
    its first 30 characters; later rows are left out.  The document is
    returned when every text written is in Latin-1, and otherwise the last
    statement raises and there is no document.  When the input is what
    [load_transactions] returns, the rows are the newest 20: date
    descending, then id descending. *)
Theorem create_pdf_report_table
        (df : DataFrame) (summary_df : Summary) (category_df : Breakdown)
        (period_name cur : string) :
  (df <> [] ->
   let doc :=
     (calls (report_head summary_df period_name cur)
      ++ calls (add_category_breakdown category_df cur)
      ++ [AddPage; SetFont "Arial" "B" 14; text_line 10 "Recent Transactions"; Ln 5;
          SetFillColor 102 126 234; SetTextColor 255 255 255]
      ++ header_cells cur
      ++ [SetTextColor 0 0 0]
      ++ flat_map row_cells (firstn 20 df))%list in
   create_pdf_report df summary_df category_df period_name cur
   = (if forallb Text.latin1 (cell_texts doc) then Some doc else None))
  /\ (forall r, cell_texts (row_cells r)
                = [Text.str_date (date r); type r; Text.first_chars 30 (category r);
                   Text.fmt2f (amount r)])
  /\ (forall s, df = load_transactions s ->
                StronglySorted (fun a b => newest_first a b = true) (firstn 20 df)).
Proof.
  split; [|split].
  - intros Hne doc.
    rewrite create_pdf_report_blocks, recent_transactions_rows by exact Hne.
    rewrite table_header_calls. reflexivity.
  - reflexivity.
  - intros s ->. apply StronglySorted_firstn.
    apply DatabaseFacts.load_transactions_order.
Qed.

Lemma create_pdf_report_table_witness :
  load_transactions (mkStore Samples.scenario 3) <> [] /\
  StronglySorted (fun a b => newest_first a b = true)
    (firstn 20 (load_transactions (mkStore Samples.scenario 3))) /\
  create_pdf_report (load_transactions (mkStore Samples.scenario 3)) [] [] "All time" "PKR"
  <> None /\
  cell_texts (row_cells Samples.long_row)
  = ["2024-01-05"; "expense"; Samples.cafe ++ " and restaurants in the ol"; "250.00"].
Proof.
  assert (Hne : load_transactions (mkStore Samples.scenario 3) <> [])
    by (vm_compute; discriminate).
  destruct (create_pdf_report_table (load_transactions (mkStore Samples.scenario 3))
              [] [] "All time" "PKR") as [Hdoc [Hrow Hsorted]].
  split; [exact Hne|]. split; [exact (Hsorted _ eq_refl)|]. split.
  - rewrite (Hdoc Hne). vm_compute. discriminate.
  - rewrite Hrow. reflexivity.
Defined.

(** C10, as the specification words it, fails: a balance that is NaN (what
    [monthly_summary] returns when both totals are infinite) is not below
    0, and its line is written in red. *)
Lemma nan_balance_is_red :
  metric_value "Balance" (monthly_summary Samples.add_in_order Samples.overflow None None)
  = Some PrimFloat.nan /\
  PrimFloat.ltb PrimFloat.nan 0 = false /\
  metric_color ("Balance", PrimFloat.nan) = red /\
  calls (summary_line "PKR" ("Balance", PrimFloat.nan))
  = [SetTextColor 255 0 0; text_line 8 "Balance: nan PKR"].
Proof. repeat split; reflexivity. Qed.

(** C10 (amended): each summary line is written in the colour
    [metric_color] gives its row, and for the Balance row that colour is
    green exactly when [value >= 0] holds, and red otherwise: when the value
    is strictly below 0, or is NaN.  A balance of exactly 0 is green. *)
Theorem balance_color (summary_df : Summary) (period_name cur : string) (v : float) :
  calls (report_head summary_df period_name cur)
  = ([SetAutoPageBreak true 15; AddPage; SetFont "Arial" "B" 20;
      SetTextColor 102 126 234;
      Cell (mkCell 0 15 ("Budget Report - " ++ period_name) 0 true "C" false);
      Ln 10; SetFont "Arial" "B" 14; SetTextColor 0 0 0;
      text_line 10 "Financial Summary"; Ln 5; SetFont "Arial" "" 12]
     ++ flat_map (fun row =>
          [(let '(r, g, b) := metric_color row in SetTextColor r g b);
           text_line 8 (fst row ++ ": " ++ Text.fmt2f (snd row) ++ " " ++ cur)])
          summary_df
     ++ [Ln 10; SetTextColor 0 0 0])%list
  /\ (metric_color ("Balance", v) = red
      <-> PrimFloat.ltb v 0 = true \/ PrimFloat.is_nan v = true)
  /\ (metric_color ("Balance", v) = green <-> PrimFloat.leb 0 v = true)
  /\ metric_color ("Balance", 0%float) = green
  /\ metric_color ("Balance", (-0)%float) = green.
Proof.
  split; [|split; [|split; [|split]]].
  - rewrite report_head_calls. do 2 f_equal.
    apply flat_map_ext. intros [name value].
    unfold summary_line. rewrite calls_bind. unfold set_text_color.
    destruct (metric_color (name, value)) as [[r g] b]. reflexivity.
  - rewrite <- Float64Facts.leb_zero_false.
    unfold metric_color. cbn [fst snd]. rewrite String.eqb_refl.
    destruct (PrimFloat.leb 0 v); split; auto; discriminate.
  - unfold metric_color. cbn [fst snd]. rewrite String.eqb_refl.
    destruct (PrimFloat.leb 0 v); split; auto; discriminate.
  - reflexivity.
  - reflexivity.
Qed.

End RendererFacts.

(** ** Properties of the import validator *)

Module UploadFacts.
Import Database Upload.

Lemma has_column_In df c : has_column df c = true <-> In c (columns df).
Proof.
  unfold has_column. rewrite existsb_exists. split.
  - intros [x [Hin Heq]]. apply String.eqb_eq in Heq. now subst.
  - intros Hin. exists c. split; [exact Hin | apply String.eqb_refl].
Qed.

Lemma missing_cols_In df c :
  In c (missing_cols df) <-> In c required_cols /\ ~ In c (columns df).
Proof.
  unfold missing_cols. rewrite filter_In, negb_true_iff, <- has_column_In.
  destruct (has_column df c); intuition congruence.
Qed.

Lemma missing_cols_nil df :
  missing_cols df = [] <-> (forall c, In c required_cols -> In c (columns df)).
Proof.
  split.
  - intros Hnil c Hc. destruct (has_column df c) eqn:E; [now apply has_column_In|].
    assert (Hin : In c (missing_cols df)).
    { apply missing_cols_In. split; [exact Hc|].
      rewrite <- has_column_In. congruence. }
    rewrite Hnil in Hin. destruct Hin.
  - intros Hall. destruct (missing_cols df) as [|c l] eqn:E; [reflexivity|].
    assert (Hin : In c (missing_cols df)) by (rewrite E; now left).
    apply missing_cols_In in Hin. destruct Hin as [Hc Hn]. now apply Hall in Hc.
Qed.

Lemma missing_cols_ordered df : StronglySorted before (missing_cols df).
Proof.
  unfold missing_cols, required_cols. cbn [filter].
  destruct (has_column df "type"), (has_column df "category"),
    (has_column df "amount"), (has_column df "currency"), (has_column df "date");
    cbn [negb];
    repeat (constructor; try (apply Nat.ltb_lt; reflexivity)).
Qed.

Lemma column_set_column_other df col col' s :
  col <> col' -> column (set_column df col s) col' = column df col'.
Proof.
  intros Hne. induction df as [|[name old] rest IH]; cbn.
  - destruct (String.eqb_spec col col'); [contradiction | reflexivity].
  - destruct (String.eqb_spec name col) as [->|Hn]; cbn.
    + destruct (String.eqb_spec col col'); [contradiction | reflexivity].
    + destruct (String.eqb name col'); [reflexivity | exact IH].
Qed.

Lemma set_column_same df col s :
  column df col = Some s -> set_column df col s = df.
Proof.
  induction df as [|[name old] rest IH]; cbn; [discriminate|].
  destruct (String.eqb name col).
  - intros H. injection H as ->. reflexivity.
  - intros H. rewrite IH by exact H. reflexivity.
Qed.

Section ValidatorFacts.
Variable read_csv read_excel : string -> string + Table.
Variable to_numeric : Series -> option (list (option float)).
Variable to_datetime_date : Series -> option (list (option Date)).


(** C4: when the decoded table lacks some of the required fields, the
    validator returns no records and the message "Missing required columns: "
    followed by the missing fields joined by ", "; the fields named are
    exactly the required ones the table lacks, in the order type, category,
    amount, currency, date.  A table that lacks only amount and currency
    gets "amount, currency". *)
Theorem missing_columns_error (f : UploadedFile) (df : Table) :
  read_table read_csv read_excel f = Some (inr df) ->
  (exists c, In c required_cols /\ ~ In c (columns df)) ->
  process_uploaded_file read_csv read_excel to_numeric to_datetime_date f
  = (None, "Missing required columns: " ++ Text.join ", " (missing_cols df))
  /\ (forall c, In c (missing_cols df) <-> In c required_cols /\ ~ In c (columns df))
  /\ StronglySorted before (missing_cols df)
  /\ (In "type" (columns df) -> In "category" (columns df) -> In "date" (columns df) ->
      ~ In "amount" (columns df) -> ~ In "currency" (columns df) ->
      process_uploaded_file read_csv read_excel to_numeric to_datetime_date f = (None, "Missing required columns: amount, currency")).
Proof.
  intros Hread [c Hc].
  assert (Hmsg : process_uploaded_file read_csv read_excel to_numeric to_datetime_date f
                 = (None, "Missing required columns: " ++ Text.join ", " (missing_cols df))).
  { unfold process_uploaded_file. rewrite Hread.
    apply missing_cols_In in Hc.
    destruct (missing_cols df); [destruct Hc | reflexivity]. }
  split; [exact Hmsg|]. split; [apply missing_cols_In|].
  split; [apply missing_cols_ordered|].
  intros Ht Hcat Hd Ha Hcur. rewrite Hmsg.
  apply has_column_In in Ht, Hcat, Hd.
  rewrite <- has_column_In in Ha, Hcur.
  apply not_true_is_false in Ha, Hcur.
  unfold missing_cols, required_cols. cbn [filter].
  rewrite Ht, Hcat, Hd, Ha, Hcur. reflexivity.
Qed.

(** C5: when the table has all the required fields and the amount column
    does not convert to numbers, or the date column does not convert to
    dates, the validator returns no records and the message "Invalid data
    types in amount or date columns"; the exception does not leave the
    function. *)
Theorem coercion_failure_error (f : UploadedFile) (df : Table) :
  read_table read_csv read_excel f = Some (inr df) ->
  (forall c, In c required_cols -> In c (columns df)) ->
  (forall a, column df "amount" = Some a -> to_numeric a = None) \/
  (forall d, column df "date" = Some d -> to_datetime_date d = None) ->
  process_uploaded_file read_csv read_excel to_numeric to_datetime_date f = (None, "Invalid data types in amount or date columns").
Proof.
  intros Hread Hall Hfail.
  unfold process_uploaded_file. rewrite Hread.
  apply missing_cols_nil in Hall. rewrite Hall. cbn [empty negb].
  unfold coerce_types.
  destruct (column df "amount") as [a|] eqn:Ea; [|reflexivity].
  destruct (to_numeric a) as [amt|] eqn:En; [|reflexivity].
  rewrite column_set_column_other by discriminate.
  destruct (column df "date") as [d|] eqn:Ed; [|reflexivity].
  destruct (to_datetime_date d) as [dts|] eqn:Et; [|reflexivity].
  destruct Hfail as [H|H].
  - rewrite (H a eq_refl) in En. discriminate.
  - rewrite (H d eq_refl) in Et. discriminate.
Qed.

(** A table that already has numbers in [amount] and dates in [date], and
    that the two conversions leave alone, comes back as it was read. *)
Lemma process_uploaded_file_typed (f : UploadedFile) (df : Table) xs ds :
  read_table read_csv read_excel f = Some (inr df) ->
  (forall c, In c required_cols -> In c (columns df)) ->
  column df "amount" = Some (Numbers xs) -> to_numeric (Numbers xs) = Some xs ->
  column df "date" = Some (Dates ds) -> to_datetime_date (Dates ds) = Some ds ->
  process_uploaded_file read_csv read_excel to_numeric to_datetime_date f
  = (Some df, "File processed successfully!").
Proof.
  intros Hread Hall Ha Hn Hd Ht.
  unfold process_uploaded_file. rewrite Hread.
  apply missing_cols_nil in Hall. rewrite Hall. cbn [empty negb].
  unfold coerce_types. rewrite Ha, Hn.
  rewrite (set_column_same df "amount" _ Ha), Hd, Ht.
  rewrite (set_column_same df "date" _ Hd). reflexivity.
Qed.

(** Nothing between the reader and the table looks at the values: a row
    whose type is neither income nor expense and whose amount is negative is
    validated and stored. *)
Lemma import_file_no_value_checks sqlite_text (f : UploadedFile) :
  read_table read_csv read_excel f = Some (inr Samples.transfer_table) ->
  to_numeric (Numbers [Some (-5)%float]) = Some [Some (-5)%float] ->
  to_datetime_date (Objects [Some "2024-01-05"]) = Some [Some (mkDate 2024 1 5)] ->
  import_file read_csv read_excel to_numeric to_datetime_date sqlite_text init_db f
  = Imported
      (mkStore [mkTx 1 "transfer" "Misc" (-5)%float "PKR" (mkDate 2024 1 5) None] 1) 1.
Proof.
  intros Hread Hn Hd. unfold import_file, Upload.process_uploaded_file.
  rewrite Hread. cbn [missing_cols empty negb].
  unfold coerce_types. cbn. rewrite Hn. cbn. rewrite Hd. reflexivity.
Qed.
End ValidatorFacts.

Lemma missing_columns_error_witness :
  process_uploaded_file (Samples.reads Samples.no_amount_currency)
    (Samples.reads Samples.no_amount_currency) Samples.to_numeric Samples.to_datetime_date
    (mkFile "upload.csv" "")
  = (None, "Missing required columns: amount, currency").
Proof.
  refine (proj1 (missing_columns_error
           (Samples.reads Samples.no_amount_currency)
           (Samples.reads Samples.no_amount_currency)
           Samples.to_numeric Samples.to_datetime_date
           (mkFile "upload.csv" "") Samples.no_amount_currency _ _)).
  - reflexivity.
  - exists "amount". split; [cbn; tauto|].
    cbn. intros H. repeat (destruct H as [H|H]; [discriminate|]). exact H.
Defined.

Lemma coercion_failure_error_witness :
  process_uploaded_file (Samples.reads Samples.amount_abc)
    (Samples.reads Samples.amount_abc) Samples.to_numeric Samples.to_datetime_date
    (mkFile "upload.xlsx" "")
  = (None, "Invalid data types in amount or date columns").
Proof.
  apply (coercion_failure_error
           (Samples.reads Samples.amount_abc) (Samples.reads Samples.amount_abc)
           Samples.to_numeric Samples.to_datetime_date
           (mkFile "upload.xlsx" "") Samples.amount_abc).
  - reflexivity.
  - intros c Hc. cbn in Hc. cbn.
    repeat (destruct Hc as [<-|Hc]; [tauto|]). destruct Hc.
  - left. intros a Ha. cbn in Ha. injection Ha as <-. reflexivity.
Defined.

(** C9 fails on the import path: the file below is validated and stored,
    and the stored row has a negative amount and a type that is neither
    income nor expense. *)
Theorem import_stores_invalid_transaction :
  let t := mkTx 1 "transfer" "Misc" (-5)%float "PKR" (mkDate 2024 1 5) None in
  import_file (Samples.reads Samples.transfer_table) (Samples.reads Samples.transfer_table)
    Samples.to_numeric Samples.to_datetime_date Samples.sqlite_text
    init_db (mkFile "upload.csv" Samples.transfer_csv)
  = Imported (mkStore [t] 1) 1
  /\ PrimFloat.leb 0 (amount t) = false
  /\ PrimFloat.ltb (amount t) 0 = true
  /\ ~ (type t = "income" \/ type t = "expense")
  /\ ~ valid_transaction t.
Proof.
  intros t. split; [reflexivity|].
  split; [reflexivity|]. split; [reflexivity|].
  split; [intros [H|H]; discriminate|].
  intros [H _]. discriminate H.
Qed.

End UploadFacts.

(** * Further properties *)

(** ** Further properties of the store *)

Module StoreFacts.
Import Database Upload Invariants.

(** A list sorted by an order that is antisymmetric on its elements is the
    only sorted arrangement of those elements. *)
Lemma sorted_perm_unique {A} (R : A -> A -> Prop) (l1 l2 : list A) :
  (forall x y, In x l1 -> In y l1 -> R x y -> R y x -> x = y) ->
  StronglySorted R l1 -> StronglySorted R l2 -> Permutation l1 l2 -> l1 = l2.
Proof.
  revert l2. induction l1 as [|a r1 IH]; intros l2 Hanti H1 H2 Hp.
  - apply Permutation_nil in Hp. now subst.
  - destruct l2 as [|b r2]; [apply Permutation_sym, Permutation_nil in Hp; discriminate|].
    inversion H1 as [|? ? Hs1 Hall1]; subst.
    inversion H2 as [|? ? Hs2 Hall2]; subst.
    assert (Hab : a = b).
    { assert (Ha : In a (b :: r2)) by (eapply Permutation_in; [exact Hp | now left]).
      assert (Hb : In b (a :: r1))
        by (eapply Permutation_in; [symmetry; exact Hp | now left]).
      destruct Ha as [Ha|Ha]; [now subst|].
      destruct Hb as [Hb|Hb]; [now subst|].
      rewrite Forall_forall in Hall1, Hall2.
      apply Hanti; [now left | now right | now apply Hall1 | now apply Hall2]. }
    subst b. f_equal. apply IH; auto.
    + intros x y Hx Hy. apply Hanti; now right.
    + now apply Permutation_cons_inv in Hp.
Qed.

Lemma same_id_same_row (l : list Transaction) a b :
  NoDup (map id l) -> In a l -> In b l -> id a = id b -> a = b.
Proof.
  induction l as [|t r IH]; simpl; [tauto|].
  intros Hnd Ha Hb Hid. inversion Hnd as [|? ? Hnot Hnd']; subst.
  destruct Ha as [<-|Ha], Hb as [<-|Hb]; auto.
  - exfalso. apply Hnot. rewrite Hid. now apply in_map.
  - exfalso. apply Hnot. rewrite <- Hid. now apply in_map.
Qed.

Lemma load_transactions_newest_first_aux (s : Store) :
  Permutation (table s) (load_transactions s) /\
  StronglySorted newer (load_transactions s).
Proof.
  split; [apply isort_perm|].
  apply StronglySorted_impl with (R := fun a b => newest_first a b = true).
  - intros a b. apply DatabaseFacts.newest_first_spec.
  - apply isort_strongly_sorted;
      [apply DatabaseFacts.newest_first_total | apply DatabaseFacts.newest_first_trans].
Qed.

(** X1: [load_transactions] returns every stored row exactly once, and
    lists them newest first: by date descending, and by id descending
    within one date. *)
Theorem load_transactions_newest_first (s : Store) :
  Permutation (table s) (load_transactions s) /\
  StronglySorted newer (load_transactions s).
Proof. apply load_transactions_newest_first_aux. Qed.


Section BulkInsertFacts.
Variable sqlite_text : float -> string.

Lemma row_id_fresh s df i k :
  row_id s df i = Some k ->
  k = last_id s + 1 \/ ~ In k (map id (table s)).
Proof.
  unfold row_id. destruct (column df "id") as [[xs|xs|xs]|]; try discriminate.
  - destruct (nth_error xs i) as [[q|]|]; try discriminate.
    + destruct (PrimFloat.is_nan q); [intros H; injection H as <-; now left|].
      destruct (Float64.to_integer q) as [z|]; [|discriminate].
      destruct (negb (existsb (fun t => id t =? z) (table s))) eqn:E; [|discriminate].
      intros H. injection H as <-. right.
      apply negb_true_iff in E.
      intros Hin. apply in_map_iff in Hin. destruct Hin as [t [Hid Ht]].
      assert (Hex : existsb (fun t => id t =? z) (table s) = true)
        by (apply existsb_exists; exists t; split; [exact Ht | now apply Z.eqb_eq]).
      congruence.
    + intros H. injection H as <-. now left.
  - intros H. injection H as <-. now left.
Qed.

Lemma insert_row_appends df s i s' :
  insert_row sqlite_text df s i = Some s' ->
  exists t, table s' = (table s ++ [t])%list /\
            last_id s' = Z.max (last_id s) (id t) /\
            (id t = last_id s + 1 \/ ~ In (id t) (map id (table s))).
Proof.
  unfold insert_row.
  destruct (row_id s df i) as [k|] eqn:Ek; [|discriminate].
  destruct (required_text sqlite_text df "type" i); [|discriminate].
  destruct (required_text sqlite_text df "category" i); [|discriminate].
  destruct (required_real df i); [|discriminate].
  destruct (required_text sqlite_text df "currency" i); [|discriminate].
  destruct (required_date df i); [|discriminate].
  destruct (optional_text sqlite_text df "notes" i); [|discriminate].
  intros H. injection H as <-. eexists. cbn [table last_id id].
  split; [reflexivity|]. split; [reflexivity|].
  now apply row_id_fresh in Ek.
Qed.

Lemma insert_row_ids_ok df s i s' :
  insert_row sqlite_text df s i = Some s' -> ids_ok s -> ids_ok s'.
Proof.
  intros H [Hnd Hle]. apply insert_row_appends in H.
  destruct H as [t [Ht [Hlast Hfresh]]]. unfold ids_ok. rewrite Ht, Hlast.
  rewrite Forall_forall in Hle. split.
  - rewrite map_app. cbn [map].
    apply Permutation_NoDup with (l := id t :: map id (table s)).
    + rewrite Permutation_app_comm. reflexivity.
    + constructor; [|exact Hnd].
      destruct Hfresh as [Hk|Hk]; [|exact Hk].
      intros Hin. apply in_map_iff in Hin. destruct Hin as [r [Hid Hr]].
      apply Hle in Hr. lia.
  - apply Forall_app. split.
    + apply Forall_forall. intros r Hr. apply Hle in Hr. lia.
    + constructor; [lia | constructor].
Qed.

Lemma insert_rows_appends df rows : forall s s',
  insert_rows sqlite_text df s rows = Some s' ->
  exists new, table s' = (table s ++ new)%list /\
              List.length new = List.length rows /\
              last_id s <= last_id s'.
Proof.
  induction rows as [|i rest IH]; intros s s'; cbn [insert_rows].
  - intros H. injection H as <-. exists []. rewrite app_nil_r.
    repeat split; lia.
  - destruct (insert_row sqlite_text df s i) as [s1|] eqn:E1; [|discriminate].
    intros H. apply IH in H. destruct H as [new [Ht [Hlen Hlast]]].
    apply insert_row_appends in E1. destruct E1 as [t [Ht1 [Hl1 _]]].
    exists (t :: new). rewrite Ht, Ht1, <- app_assoc. cbn.
    repeat split; [now rewrite Hlen | lia].
Qed.

Lemma insert_rows_ids_ok df rows : forall s s',
  insert_rows sqlite_text df s rows = Some s' -> ids_ok s -> ids_ok s'.
Proof.
  induction rows as [|i rest IH]; intros s s'; cbn [insert_rows].
  - intros H. injection H as <-. auto.
  - destruct (insert_row sqlite_text df s i) as [s1|] eqn:E1; [|discriminate].
    intros H Hok. eapply IH; [exact H|]. eapply insert_row_ids_ok; eauto.
Qed.

(** X6: when [bulk_insert_transactions] succeeds, the rows that were in
    the table are still there, unchanged and in place, followed by exactly
    [len(df)] new rows. *)
Theorem bulk_insert_appends (s s' : Store) (df : Table) :
  bulk_insert_transactions sqlite_text s df = Some s' ->
  exists new, table s' = (table s ++ new)%list /\ List.length new = len df.
Proof.
  unfold bulk_insert_transactions.
  destruct (forallb _ _); [|discriminate].
  intros H. apply insert_rows_appends in H. destruct H as [new [Ht [Hlen _]]].
  exists new. split; [exact Ht|]. now rewrite Hlen, length_seq.
Qed.

(** X7: a successful [bulk_insert_transactions] keeps the ids of the
    table unique and bounded by the last id handed out, whether the frame
    brings its own [id] column or not. *)
Theorem bulk_insert_ids_ok (s s' : Store) (df : Table) :
  bulk_insert_transactions sqlite_text s df = Some s' ->
  ids_ok s -> ids_ok s'.
Proof.
  unfold bulk_insert_transactions.
  destruct (forallb _ _); [|discriminate].
  apply insert_rows_ids_ok.
Qed.
End BulkInsertFacts.

Lemma newer_antisym (l : list Transaction) a b :
  NoDup (map id l) -> In a l -> In b l -> newer a b -> newer b a -> a = b.
Proof.
  intros Hnd Ha Hb Hab Hba. apply (same_id_same_row l); auto.
  unfold newer in *.
  rewrite !DatabaseFacts.date_compare_Gt, !DatabaseFacts.date_compare_Eq in *. lia.
Qed.

(** X4: with unique ids the listing does not depend on the order in which
    the rows were inserted: two stores holding the same rows load the same
    frame. *)
Theorem load_transactions_order_unique (s1 s2 : Store) :
  NoDup (map id (table s1)) ->
  Permutation (table s1) (table s2) ->
  load_transactions s1 = load_transactions s2.
Proof.
  intros Hnd Hp.
  destruct (load_transactions_newest_first_aux s1) as [Hp1 Hs1].
  destruct (load_transactions_newest_first_aux s2) as [Hp2 Hs2].
  apply (sorted_perm_unique newer); auto.
  - intros x y Hx Hy. apply (newer_antisym (table s1)); auto;
      eapply Permutation_in; try (symmetry; exact Hp1); assumption.
  - rewrite <- Hp1, Hp. exact Hp2.
Qed.



Lemma stored_ids_ok : ids_ok MoreSamples.stored.
Proof.
  split; cbn.
  - repeat constructor; cbn; lia.
  - repeat constructor; cbn; lia.
Qed.



Lemma load_transactions_order_unique_witness :
  load_transactions MoreSamples.stored
  = load_transactions (mkStore (rev Samples.scenario) 3).
Proof.
  apply load_transactions_order_unique.
  - apply stored_ids_ok.
  - apply Permutation_rev.
Defined.


Lemma bulk_insert_appends_witness :
  exists s' new,
    bulk_insert_transactions Samples.sqlite_text MoreSamples.stored MoreSamples.two_rows
    = Some s' /\
    table s' = (table MoreSamples.stored ++ new)%list /\ List.length new = 2%nat.
Proof.
  eexists.
  destruct (bulk_insert_appends Samples.sqlite_text MoreSamples.stored _
              MoreSamples.two_rows eq_refl) as [new [Ht Hl]].
  exists new. split; [reflexivity | split; [exact Ht | exact Hl]].
Defined.

Lemma bulk_insert_ids_ok_witness :
  exists s',
    bulk_insert_transactions Samples.sqlite_text MoreSamples.stored MoreSamples.two_rows
    = Some s' /\ ids_ok s'.
Proof.
  eexists. split; [reflexivity|].
  exact (bulk_insert_ids_ok Samples.sqlite_text MoreSamples.stored _
           MoreSamples.two_rows eq_refl stored_ids_ok).
Defined.

End StoreFacts.

(** ** Further properties of the aggregator *)

Module AggregatorExtras.
Import Aggregator Charts Invariants.

Lemma groupby_sum_nil_iff group_sum tmp : groupby_sum group_sum tmp = [] <-> tmp = [].
Proof.
  split; [|intros ->; reflexivity].
  destruct tmp as [|t r]; [reflexivity|]. intros H. exfalso.
  assert (Hin : In (category t) (group_keys (t :: r)))
    by (apply AggregatorFacts.group_keys_In; now left).
  unfold groupby_sum in H. apply map_eq_nil in H. rewrite H in Hin. destruct Hin.
Qed.

(** X12: under any sort that meets the contract, the breakdown of a kind
    is empty exactly when no row of the period has that kind, and
    [create_animated_chart] shows "No data available" exactly when the
    breakdown it is given is empty. *)
Theorem category_breakdown_empty_iff
        (group_sum : list float -> float) (sort : Breakdown -> Breakdown)
        (df : DataFrame) (y m : option Z) (k title : string) :
  sort_values_contract sort ->
  (category_breakdown group_sum sort df y m k = [] <->
   forall t, In t (filter_period y m df) -> type t <> k) /\
  (create_animated_chart (category_breakdown group_sum sort df y m k) title
   = Annotated "No data available" (Some title) <->
   category_breakdown group_sum sort df y m k = []).
Proof.
  intros Hc. split.
  - pose proof (AggregatorFacts.category_breakdown_perm group_sum sort df y m k Hc) as Hp.
    assert (Hnil : category_breakdown group_sum sort df y m k = []
                   <-> of_type k (filter_period y m df) = []).
    { rewrite <- (groupby_sum_nil_iff group_sum). split; intros H.
      - rewrite H in Hp. now apply Permutation_sym, Permutation_nil in Hp.
      - rewrite H in Hp. now apply Permutation_nil in Hp. }
    rewrite Hnil. unfold of_type. split.
    + intros H t Ht Hk.
      assert (Hin : In t (filter (fun t => String.eqb (type t) k) (filter_period y m df)))
        by (apply filter_In; split; [exact Ht | now apply String.eqb_eq]).
      rewrite H in Hin. destruct Hin.
    + intros H. destruct (filter _ _) as [|t r] eqn:E; [reflexivity|]. exfalso.
      assert (Hin : In t (filter (fun t => String.eqb (type t) k) (filter_period y m df)))
        by (rewrite E; now left).
      apply filter_In in Hin. destruct Hin as [Ht Hk].
      apply String.eqb_eq in Hk. now apply (H t).
  - unfold create_animated_chart.
    destruct (category_breakdown group_sum sort df y m k); cbn [empty]; split;
      intros H; try reflexivity; discriminate.
Qed.

Lemma of_type_known k y m df :
  k = "income" \/ k = "expense" ->
  of_type k (filter_period y m (filter known_type df))
  = of_type k (filter_period y m df).
Proof.
  intros Hk. unfold of_type. rewrite !AggregatorFacts.filter_period_filter, !filter_both.
  apply filter_ext. intros t. unfold known_type.
  destruct (String.eqb_spec (type t) k) as [->|Hne];
    [|now rewrite !andb_false_r].
  destruct Hk as [->| ->]; cbn; now rewrite ?andb_true_r, ?orb_true_r.
Qed.

(** X13: rows whose type is neither 'income' nor 'expense' do not count:
    dropping them from a frame leaves every metric of [monthly_summary]
    as it was, as long as some other row remains. *)
Theorem monthly_summary_ignores_other_types
        (np_sum : list float -> float) (df : DataFrame) (y m : option Z) :
  filter known_type df <> [] ->
  monthly_summary np_sum (filter known_type df) y m = monthly_summary np_sum df y m.
Proof.
  intros Hne.
  assert (Hdf : df <> []) by (intros ->; now apply Hne).
  rewrite !AggregatorFacts.monthly_summary_metrics by assumption. cbv zeta.
  rewrite !of_type_known by auto. reflexivity.
Qed.

Lemma of_category_amounts c k y m df :
  map amount (of_category c (of_type k (filter_period y m df)))
  = map amount
      (filter (fun t => SummarySpec.passes y m t && String.eqb (type t) k
                        && String.eqb (category t) c) df).
Proof.
  unfold of_category, of_type.
  rewrite AggregatorFacts.filter_period_filter, !filter_both. f_equal.
  apply filter_ext. intros t. cbv beta.
  rewrite AggregatorFacts.in_period_passes. apply andb_assoc.
Qed.

Lemma category_of_selected c k y m df :
  In c (map category (of_type k (filter_period y m df)))
  <-> exists t, In t df /\ SummarySpec.passes y m t = true /\ type t = k /\ category t = c.
Proof.
  unfold of_type. rewrite AggregatorFacts.filter_period_filter, filter_both, in_map_iff.
  split.
  - intros [t [Hc Ht]]. apply filter_In in Ht. destruct Ht as [Hin Hb].
    apply andb_prop in Hb. destruct Hb as [Hp Hk].
    rewrite AggregatorFacts.in_period_passes in Hp. apply String.eqb_eq in Hk.
    exists t. auto.
  - intros [t [Hin [Hp [Hk Hc]]]]. exists t. split; [exact Hc|].
    apply filter_In. split; [exact Hin|].
    rewrite AggregatorFacts.in_period_passes, Hp. now apply String.eqb_eq.
Qed.

(** X21: under any sort that rearranges its rows, the breakdown has exactly
    one row for each category that some transaction of the requested type
    has in the period, and no other row; the amount of the row is the sum
    [groupby] computes from the amounts of the transactions of that type,
    period and category, in frame order. *)
Theorem category_breakdown_rows
        (group_sum : list float -> float) (sort : Breakdown -> Breakdown)
        (df : DataFrame) (y m : option Z) (k : string) :
  sort_values_contract sort ->
  NoDup (map fst (category_breakdown group_sum sort df y m k)) /\
  forall c a,
    In (c, a) (category_breakdown group_sum sort df y m k) <->
    (exists t, In t df /\ SummarySpec.passes y m t = true /\ type t = k /\ category t = c)
    /\ a = group_sum
             (map amount
                (filter (fun t => SummarySpec.passes y m t && String.eqb (type t) k
                                  && String.eqb (category t) c) df)).
Proof.
  intros Hc.
  pose proof (AggregatorFacts.category_breakdown_perm group_sum sort df y m k Hc) as Hp.
  split.
  - eapply Permutation_NoDup; [apply Permutation_map, Hp|].
    rewrite AggregatorFacts.groupby_sum_keys. apply AggregatorFacts.group_keys_NoDup.
  - intros c a. rewrite <- category_of_selected, <- of_category_amounts.
    rewrite <- AggregatorFacts.groupby_sum_In. split.
    + apply Permutation_in. now symmetry.
    + now apply Permutation_in.
Qed.

Lemma category_breakdown_rows_witness :
  In ("Rent", 15000%float)
     (category_breakdown Samples.add_in_order Samples.sort_values_stable
        Samples.scenario (Some 2024) None "expense").
Proof.
  apply (proj2 (category_breakdown_rows Samples.add_in_order Samples.sort_values_stable
                  Samples.scenario (Some 2024) None "expense"
                  AggregatorFacts.sort_values_stable_contract)).
  split; [|reflexivity].
  exists (mkTx 2 "expense" "Rent" 15000 "PKR" (mkDate 2024 1 10) None).
  repeat split. right. now left.
Defined.

Lemma category_breakdown_empty_iff_witness :
  category_breakdown Samples.add_in_order Samples.sort_values_stable
    Samples.scenario None None "transfer" = [].
Proof.
  apply (proj1 (category_breakdown_empty_iff Samples.add_in_order
                  Samples.sort_values_stable Samples.scenario None None
                  "transfer" "Expense Distribution"
                  AggregatorFacts.sort_values_stable_contract)).
  intros t Ht. cbn in Ht. destruct Ht as [<-|[<-|[<-|[]]]]; discriminate.
Defined.

Lemma monthly_summary_ignores_other_types_witness :
  monthly_summary Samples.add_in_order (filter known_type MoreSamples.with_transfer)
    None None
  = monthly_summary Samples.add_in_order MoreSamples.with_transfer None None.
Proof.
  apply monthly_summary_ignores_other_types. cbn. discriminate.
Defined.

End AggregatorExtras.

(** ** Properties of the dashboard code *)

Module ShellFacts.
Import Aggregator Database Renderer Shell.

Lemma filter_period_all df : filter_period None None df = df.
Proof. reflexivity. Qed.

(** X14: the PDF export shows what the dashboard shows.  When the period
    has a label, pressing "Generate PDF Report" gives the warning if no row
    falls in the period, and otherwise the report of the filtered rows built
    with the very summary ([monthly_summary]) and expense breakdown
    ([category_breakdown]) the dashboard computes from the whole frame for
    that period, under the file name made from the label; it fails exactly
    when [create_pdf_report] fails on those arguments. *)
Theorem generate_pdf_report_matches_dashboard
        (np_sum group_sum : list float -> float) (sort : Breakdown -> Breakdown)
        (df : DataFrame) (y m : option Z) (cur name : string) :
  period_name y m = Some name ->
  generate_pdf_report np_sum group_sum sort df y m cur
  = if empty (filter_period y m df) then Some NoData
    else option_map
           (fun doc => Report doc ("budget_report_" ++ underscores name ++ ".pdf"))
           (create_pdf_report (filter_period y m df) (monthly_summary np_sum df y m)
              (category_breakdown group_sum sort df y m "expense") name cur).
Proof.
  intros Hn. unfold generate_pdf_report. rewrite Hn.
  destruct (filter_period y m df) as [|t r] eqn:E; [reflexivity|].
  cbn [empty].
  assert (Hdf : df <> []).
  { intros ->. rewrite AggregatorFacts.filter_period_nil in E. discriminate. }
  rewrite (AggregatorFacts.monthly_summary_metrics np_sum df y m Hdf).
  rewrite (AggregatorFacts.monthly_summary_metrics np_sum (t :: r) None None) by discriminate.
  cbv zeta. rewrite filter_period_all, E.
  unfold category_breakdown. cbn [empty]. rewrite filter_period_all.
  destruct df as [|t0 r0]; [congruence|]. cbn [empty]. rewrite E.
  destruct (create_pdf_report _ _ _ _ _); reflexivity.
Qed.

Lemma py_index_none {A} (l : list A) i :
  py_index l i = None
  <-> Z.of_nat (List.length l) <= i \/ i < - Z.of_nat (List.length l).
Proof.
  unfold py_index.
  destruct ((0 <=? i) && (i <? Z.of_nat (List.length l))) eqn:E1.
  - apply andb_prop in E1. destruct E1 as [Ha Hb].
    apply Z.leb_le in Ha. apply Z.ltb_lt in Hb.
    split; [|lia]. intros H. apply nth_error_None in H. lia.
  - destruct ((- Z.of_nat (List.length l) <=? i) && (i <? 0)) eqn:E2.
    + apply andb_prop in E2. destruct E2 as [Ha Hb].
      apply Z.leb_le in Ha. apply Z.ltb_lt in Hb.
      split; [|lia]. intros H. apply nth_error_None in H. lia.
    + split; [intros _|reflexivity].
      apply andb_false_iff in E1, E2.
      rewrite Z.leb_gt, Z.ltb_ge in E1, E2. lia.
Qed.

(** X15: the period label cannot be computed ([IndexError]) exactly when a
    year is selected and the month number is 13 or more, or below -13; and
    without a selected year the label is "All time" whatever the month. *)
Theorem period_name_index_error (y m : option Z) :
  (period_name y m = None <->
   truthy y = true /\ truthy m = true /\ (13 <= value_of m \/ value_of m < -13)) /\
  (truthy y = false -> period_name y m = Some "All time").
Proof.
  unfold period_name. split.
  - destruct (truthy y), (truthy m); cbn [andb];
      try (split; [discriminate | intros [? [? ?]]; discriminate]).
    pose proof (py_index_none month_names (value_of m)) as Hi.
    cbn [month_names List.length] in Hi.
    destruct (py_index month_names (value_of m)) as [name|].
    + split; [discriminate|]. intros [_ [_ H]].
      assert (Hn : @None string = None) by reflexivity.
      destruct Hi as [_ Hi]. specialize (Hi ltac:(lia)). discriminate.
    + split; [|reflexivity]. intros _. repeat split.
      destruct Hi as [Hi _]. specialize (Hi eq_refl). lia.
  - intros ->. reflexivity.
Qed.

Lemma geb_total a b : Z.geb a b = true \/ Z.geb b a = true.
Proof. rewrite !Z.geb_le. lia. Qed.

Lemma geb_trans a b c : Z.geb a b = true -> Z.geb b c = true -> Z.geb a c = true.
Proof. rewrite !Z.geb_le. lia. Qed.

Lemma years_In now_year df y :
  In y (years now_year df)
  <-> In y (if empty df then [now_year] else map (fun t => year (date t)) df).
Proof.
  unfold years. split; intros H.
  - apply (nodup_In Z.eq_dec).
    eapply Permutation_in; [symmetry; apply isort_perm | exact H].
  - eapply Permutation_in; [apply isort_perm|]. now apply nodup_In.
Qed.

(** X16: for a non-empty frame the years offered by the year selector are
    distinct, in descending order, and each is the year of some row, so
    that filtering by an offered year alone never gives an empty frame. *)
Theorem years_offer_data (now_year : Z) (df : DataFrame) (y : Z) :
  df <> [] -> In y (years now_year df) ->
  NoDup (years now_year df) /\
  StronglySorted (fun a b => b <= a) (years now_year df) /\
  (exists t, In t df /\ year (date t) = y) /\
  (y <> 0 -> filter_period (Some y) None df <> []).
Proof.
  intros Hne Hy. split; [|split].
  - unfold years. eapply Permutation_NoDup; [apply isort_perm | apply NoDup_nodup].
  - apply StronglySorted_impl with (R := fun a b => Z.geb a b = true).
    + intros a b. apply Z.geb_le.
    + apply isort_strongly_sorted; [apply geb_total | apply geb_trans].
  - apply years_In in Hy. destruct df as [|t0 r0]; [congruence|]. cbn [empty] in Hy.
    apply in_map_iff in Hy. destruct Hy as [t [Hty Ht]].
    split; [exists t; auto|]. intros Hy0 Hnil.
    assert (Hin : In t (filter_period (Some y) None (t0 :: r0))).
    { unfold filter_period, filter_month, filter_year. cbn [truthy].
      apply Z.eqb_neq in Hy0. rewrite Hy0. cbn [negb].
      apply filter_In. split; [exact Ht | now apply Z.eqb_eq]. }
    rewrite Hnil in Hin. destruct Hin.
Qed.

Lemma generate_pdf_report_matches_dashboard_witness :
  period_name (Some 2024) (Some 1) = Some "January 2024" /\
  exists doc,
    create_pdf_report (filter_period (Some 2024) (Some 1) Samples.scenario)
      (monthly_summary Samples.add_in_order Samples.scenario (Some 2024) (Some 1))
      (category_breakdown Samples.add_in_order Samples.sort_values_stable
         Samples.scenario (Some 2024) (Some 1) "expense")
      "January 2024" "PKR" = Some doc /\
    generate_pdf_report Samples.add_in_order Samples.add_in_order
      Samples.sort_values_stable Samples.scenario (Some 2024) (Some 1) "PKR"
    = Some (Report doc "budget_report_January_2024.pdf").
Proof.
  split; [reflexivity|].
  eexists. split; [vm_compute; reflexivity|].
  rewrite (generate_pdf_report_matches_dashboard Samples.add_in_order
             Samples.add_in_order Samples.sort_values_stable Samples.scenario
             (Some 2024) (Some 1) "PKR" "January 2024" eq_refl).
  vm_compute. reflexivity.
Defined.

Lemma years_offer_data_witness :
  In 2024 (years 2026 Samples.scenario) /\
  filter_period (Some 2024) None Samples.scenario <> [].
Proof.
  assert (Hin : In 2024 (years 2026 Samples.scenario)) by (now left).
  split; [exact Hin|].
  refine (proj2 (proj2 (proj2 (years_offer_data 2026 Samples.scenario 2024 _ Hin))) _).
  - discriminate.
  - discriminate.
Defined.

End ShellFacts.

(** ** Properties of the charts *)

Module ChartFacts.
Import Aggregator Charts Invariants AggregatorExtras.

Lemma pivot_index_In df mo :
  In mo (pivot_index df) <-> exists t, In t df /\ month_year t = mo.
Proof.
  unfold pivot_index. split.
  - intros H.
    assert (H' : In mo (map month_year df)).
    { apply (nodup_In string_dec).
      eapply Permutation_in; [symmetry; apply isort_perm | exact H]. }
    apply in_map_iff in H'. destruct H' as [t [Ht Hin]]. now exists t.
  - intros [t [Hin Ht]]. eapply Permutation_in; [apply isort_perm|].
    apply nodup_In. rewrite <- Ht. now apply in_map.
Qed.

Lemma pivot_index_NoDup df : NoDup (pivot_index df).
Proof.
  unfold pivot_index.
  eapply Permutation_NoDup; [apply isort_perm | apply NoDup_nodup].
Qed.

Lemma pivot_columns_has df ty :
  existsb (String.eqb ty) (pivot_columns df) = true
  <-> exists t, In t df /\ type t = ty.
Proof.
  rewrite existsb_exists. unfold pivot_columns. split.
  - intros [x [Hin Heq]]. apply String.eqb_eq in Heq. subst x.
    assert (H' : In ty (map type df)).
    { apply (nodup_In string_dec).
      eapply Permutation_in; [symmetry; apply isort_perm | exact Hin]. }
    apply in_map_iff in H'. destruct H' as [t [Ht Hin']]. now exists t.
  - intros [t [Hin Ht]]. exists ty. split; [|apply String.eqb_refl].
    eapply Permutation_in; [apply isort_perm|].
    apply nodup_In. rewrite <- Ht. now apply in_map.
Qed.

Section TrendChartFacts.
Variable group_sum : list float -> float.

Lemma traces_of_trend df tr :
  In tr (traces_of (create_trend_chart group_sum df)) ->
  exists ty name color,
    (ty = "income" /\ name = "Income" \/ ty = "expense" /\ name = "Expense") /\
    existsb (String.eqb ty) (pivot_columns df) = true /\
    tr = mkTrace name (pivot_index df)
                 (map (fun m => pivot_value group_sum df m ty) (pivot_index df)) color.
Proof.
  unfold create_trend_chart. destruct (empty df); [intros []|].
  cbn [traces_of]. intros H. apply in_app_or in H.
  unfold trace_of in H. destruct H as [H|H].
  - destruct (existsb _ _) eqn:E in H; [|destruct H].
    destruct H as [<-|[]]. exists "income", "Income", "#2ecc71". auto.
  - destruct (existsb _ _) eqn:E in H; [|destruct H].
    destruct H as [<-|[]]. exists "expense", "Expense", "#e74c3c". auto.
Qed.

(** X17: every line of the trend chart has the same x axis: the months
    ([YYYY-MM]) in which the frame has a row of any type, each once, in
    ascending order, with one y value per month. *)
Theorem trend_chart_axis (df : DataFrame) (tr : Trace) :
  In tr (traces_of (create_trend_chart group_sum df)) ->
  xs tr = pivot_index df /\
  NoDup (xs tr) /\
  Sorted (fun a b => String.leb a b = true) (xs tr) /\
  (forall mo, In mo (xs tr) <-> exists t, In t df /\ month_year t = mo) /\
  List.length (ys tr) = List.length (xs tr).
Proof.
  intros H. apply traces_of_trend in H.
  destruct H as [ty [name [color [_ [_ ->]]]]]. cbn [xs ys].
  split; [reflexivity|]. split; [apply pivot_index_NoDup|].
  split; [apply isort_sorted, String.leb_total|].
  split; [apply pivot_index_In | apply length_map].
Qed.

(** X19: the trend chart has an Income line exactly when the frame has an
    income row, an Expense line exactly when it has an expense row, and no
    other line: rows of another type are not drawn. *)
Theorem trend_chart_lines (df : DataFrame) :
  ((exists tr, In tr (traces_of (create_trend_chart group_sum df)) /\ trace_name tr = "Income")
   <-> exists t, In t df /\ type t = "income") /\
  ((exists tr, In tr (traces_of (create_trend_chart group_sum df)) /\ trace_name tr = "Expense")
   <-> exists t, In t df /\ type t = "expense") /\
  (forall tr, In tr (traces_of (create_trend_chart group_sum df)) ->
              trace_name tr = "Income" \/ trace_name tr = "Expense").
Proof.
  assert (Hpos : forall ty name color,
             (exists t, In t df /\ type t = ty) ->
             df <> [] /\ trace_of group_sum df ty name color
             = [mkTrace name (pivot_index df)
                        (map (fun m => pivot_value group_sum df m ty) (pivot_index df)) color]).
  { intros ty name color Hex. split.
    - destruct Hex as [t [Ht _]]. intros ->. destruct Ht.
    - unfold trace_of. apply pivot_columns_has in Hex. now rewrite Hex. }
  split; [|split].
  - split.
    + intros [tr [Hin Hn]]. apply traces_of_trend in Hin.
      destruct Hin as [ty [name [color [Hty [Hex ->]]]]]. cbn [trace_name] in Hn.
      apply pivot_columns_has in Hex.
      destruct Hty as [[-> _]|[_ ->]]; [exact Hex | discriminate].
    + intros Hex. destruct (Hpos "income" "Income" "#2ecc71" Hex) as [Hne Htr].
      exists (mkTrace "Income" (pivot_index df)
                (map (fun m => pivot_value group_sum df m "income") (pivot_index df)) "#2ecc71").
      split; [|reflexivity].
      unfold create_trend_chart. destruct df; [congruence|]. cbn [empty traces_of].
      apply in_or_app. left. rewrite Htr. now left.
  - split.
    + intros [tr [Hin Hn]]. apply traces_of_trend in Hin.
      destruct Hin as [ty [name [color [Hty [Hex ->]]]]]. cbn [trace_name] in Hn.
      apply pivot_columns_has in Hex.
      destruct Hty as [[_ ->]|[-> _]]; [discriminate | exact Hex].
    + intros Hex. destruct (Hpos "expense" "Expense" "#e74c3c" Hex) as [Hne Htr].
      exists (mkTrace "Expense" (pivot_index df)
                (map (fun m => pivot_value group_sum df m "expense") (pivot_index df)) "#e74c3c").
      split; [|reflexivity].
      unfold create_trend_chart. destruct df; [congruence|]. cbn [empty traces_of].
      apply in_or_app. right. rewrite Htr. now left.
  - intros tr Hin. apply traces_of_trend in Hin.
    destruct Hin as [ty [name [color [Hty [_ ->]]]]]. cbn [trace_name].
    destruct Hty as [[_ ->]|[_ ->]]; auto.
Qed.
End TrendChartFacts.

Lemma income_line_drawn :
  In MoreSamples.income_line
     (traces_of (create_trend_chart Samples.add_in_order Samples.scenario)).
Proof. left. reflexivity. Qed.

Lemma trend_chart_axis_witness :
  xs MoreSamples.income_line = pivot_index Samples.scenario /\
  NoDup (xs MoreSamples.income_line).
Proof.
  destruct (trend_chart_axis Samples.add_in_order Samples.scenario
              MoreSamples.income_line income_line_drawn)
    as [Hx [Hnd _]].
  split; [exact Hx | exact Hnd].
Defined.

End ChartFacts.

(** ** Further properties of the import path *)

Module UploadExtras.
Import Database Upload Invariants.

Lemma columns_set_column df col s :
  In col (columns df) -> columns (set_column df col s) = columns df.
Proof.
  unfold columns. induction df as [|[name old] rest IH]; cbn [map fst In set_column]; [tauto|].
  intros Hin. destruct (String.eqb_spec name col) as [->|Hne]; [reflexivity|].
  cbn [map fst]. f_equal. apply IH. destruct Hin; [contradiction | assumption].
Qed.

Lemma column_set_column_same df col s :
  column (set_column df col s) col = Some s.
Proof.
  induction df as [|[name old] rest IH]; cbn.
  - now rewrite String.eqb_refl.
  - destruct (String.eqb name col) eqn:E; cbn; rewrite E; [reflexivity | exact IH].
Qed.

Lemma column_In df col s : column df col = Some s -> In col (columns df).
Proof.
  induction df as [|[name old] rest IH]; cbn; [discriminate|].
  destruct (String.eqb_spec name col); [now left|]. intros H. right. now apply IH.
Qed.

Section ValidatorExtras.
Variable read_csv read_excel : string -> string + Table.
Variable to_numeric : Series -> option (list (option float)).
Variable to_datetime_date : Series -> option (list (option Date)).

(** X9: when the validator returns records, the message is the success
    message and the records are the decoded table with its columns in the
    same order, all required fields present, the amount column replaced by
    the result of [pd.to_numeric] and the date column by the result of
    [pd.to_datetime(...).dt.date]; every other column is returned as
    read. *)
Theorem process_uploaded_file_success (f : UploadedFile) (df' : Table) (msg : string) :
  process_uploaded_file read_csv read_excel to_numeric to_datetime_date f = (Some df', msg) ->
  msg = "File processed successfully!" /\
  exists df a amt d dts,
    read_table read_csv read_excel f = Some (inr df) /\
    columns df' = columns df /\
    (forall c, In c required_cols -> In c (columns df')) /\
    column df "amount" = Some a /\ to_numeric a = Some amt /\
    column df "date" = Some d /\ to_datetime_date d = Some dts /\
    column df' "amount" = Some (Numbers amt) /\
    column df' "date" = Some (Dates dts) /\
    (forall c, c <> "amount" -> c <> "date" -> column df' c = column df c).
Proof.
  unfold process_uploaded_file.
  destruct (read_table read_csv read_excel f) as [[e|df]|] eqn:Er; try discriminate.
  destruct (missing_cols df) as [|c0 l0] eqn:Em; cbn [empty negb]; [|discriminate].
  unfold coerce_types.
  destruct (column df "amount") as [a|] eqn:Ea; [|discriminate].
  destruct (to_numeric a) as [amt|] eqn:En; [|discriminate].
  rewrite UploadFacts.column_set_column_other by discriminate.
  destruct (column df "date") as [d|] eqn:Ed; [|discriminate].
  destruct (to_datetime_date d) as [dts|] eqn:Et; [|discriminate].
  intros H. injection H as <- <-. split; [reflexivity|].
  exists df, a, amt, d, dts.
  assert (Hcols : columns (set_column (set_column df "amount" (Numbers amt)) "date" (Dates dts))
                  = columns df).
  { rewrite columns_set_column.
    - apply columns_set_column. eapply column_In; eauto.
    - rewrite columns_set_column; eapply column_In; eauto. }
  repeat split; auto.
  - intros c Hc. rewrite Hcols. exact (proj1 (UploadFacts.missing_cols_nil df) Em c Hc).
  - rewrite UploadFacts.column_set_column_other by discriminate.
    apply column_set_column_same.
  - apply column_set_column_same.
  - intros c Hca Hcd.
    rewrite !UploadFacts.column_set_column_other by congruence. reflexivity.
Qed.

(** X10: the validator returns no records exactly when its message is not
    the success message, whatever the file, the readers and the
    conversions. *)
Theorem process_uploaded_file_records_iff_success (f : UploadedFile) :
  fst (process_uploaded_file read_csv read_excel to_numeric to_datetime_date f) = None
  <-> snd (process_uploaded_file read_csv read_excel to_numeric to_datetime_date f)
      <> "File processed successfully!".
Proof.
  unfold process_uploaded_file.
  destruct (read_table read_csv read_excel f) as [[e|df]|]; cbn [fst snd].
  - split; [intros _; cbn; discriminate | reflexivity].
  - destruct (negb (empty (missing_cols df))); cbn [fst snd].
    + split; [intros _; cbn; discriminate | reflexivity].
    + destruct (coerce_types to_numeric to_datetime_date df); cbn [fst snd].
      * split; [discriminate | intros H; now contradiction H].
      * split; [intros _; discriminate | reflexivity].
  - split; [intros _; discriminate | reflexivity].
Qed.
End ValidatorExtras.

Section BulkInsertExtras.
Variable sqlite_text : float -> string.

Lemma insert_row_complete df s i s' :
  insert_row sqlite_text df s i = Some s' -> row_complete sqlite_text df i.
Proof.
  unfold insert_row, row_complete.
  destruct (row_id s df i); [|discriminate].
  destruct (required_text sqlite_text df "type" i); [|discriminate].
  destruct (required_text sqlite_text df "category" i); [|discriminate].
  destruct (required_real df i); [|discriminate].
  destruct (required_text sqlite_text df "currency" i); [|discriminate].
  destruct (required_date df i); [|discriminate].
  intros _. repeat split; discriminate.
Qed.

Lemma insert_rows_complete df rows : forall s s',
  insert_rows sqlite_text df s rows = Some s' ->
  forall i, In i rows -> row_complete sqlite_text df i.
Proof.
  induction rows as [|j rest IH]; intros s s' H i Hi; [destruct Hi|].
  cbn [insert_rows] in H.
  destruct (insert_row sqlite_text df s j) as [s1|] eqn:E; [|discriminate].
  destruct Hi as [<-|Hi]; [eapply insert_row_complete; eauto | eapply IH; eauto].
Qed.

(** X8: if some row of the frame has no value in one of the five columns
    the table declares [NOT NULL] (type, category, amount, currency, date),
    [bulk_insert_transactions] fails and stores no row of the frame at
    all. *)
Theorem bulk_insert_all_or_nothing (s : Store) (df : Table) (i : nat) :
  (i < len df)%nat -> ~ row_complete sqlite_text df i ->
  bulk_insert_transactions sqlite_text s df = None.
Proof.
  intros Hi Hbad. unfold bulk_insert_transactions.
  destruct (forallb _ _); [|reflexivity].
  destruct (insert_rows sqlite_text df s (seq 0 (len df))) as [s'|] eqn:E; [|reflexivity].
  exfalso. apply Hbad. eapply insert_rows_complete; [exact E|].
  apply in_seq. lia.
Qed.
End BulkInsertExtras.

Lemma process_uploaded_file_success_witness :
  snd (process_uploaded_file (Samples.reads Samples.transfer_table)
         (Samples.reads Samples.transfer_table) Samples.to_numeric
         Samples.to_datetime_date (mkFile "upload.csv" Samples.transfer_csv))
  = "File processed successfully!".
Proof.
  exact (proj1 (process_uploaded_file_success
                  (Samples.reads Samples.transfer_table)
                  (Samples.reads Samples.transfer_table) Samples.to_numeric
                  Samples.to_datetime_date (mkFile "upload.csv" Samples.transfer_csv)
                  _ _ eq_refl)).
Defined.

Lemma bulk_insert_all_or_nothing_witness :
  bulk_insert_transactions Samples.sqlite_text MoreSamples.stored MoreSamples.blank_category
  = None.
Proof.
  apply (bulk_insert_all_or_nothing Samples.sqlite_text MoreSamples.stored
           MoreSamples.blank_category 1%nat).
  - cbn. lia.
  - intros [_ [H _]]. apply H. reflexivity.
Defined.

End UploadExtras.

(** ** Further properties of the report renderer *)

Module RendererExtras.
Import Aggregator Renderer.

(** X20: for a breakdown that is not empty the category block of the report
    is its heading followed by exactly one line per row of the breakdown,
    in the order of the breakdown, reading "category: amount currency" with
    the amount to two decimals. *)
Theorem add_category_breakdown_lines (category_df : Breakdown) (cur : string) :
  category_df <> [] ->
  calls (add_category_breakdown category_df cur)
  = ([SetFont "Arial" "B" 14; text_line 10 "Category Breakdown"; Ln 5;
      SetFont "Arial" "" 11]
     ++ map (fun r => text_line 7 (fst r ++ ": " ++ Text.fmt2f (snd r) ++ " " ++ cur))
            category_df)%list
  /\ cell_texts (calls (add_category_breakdown category_df cur))
     = ("Category Breakdown"
        :: map (fun r => fst r ++ ": " ++ Text.fmt2f (snd r) ++ " " ++ cur) category_df).
Proof.
  intros Hne. destruct category_df as [|r0 rest]; [congruence|].
  assert (E : calls (add_category_breakdown (r0 :: rest) cur)
              = ([SetFont "Arial" "B" 14; text_line 10 "Category Breakdown"; Ln 5;
                  SetFont "Arial" "" 11]
                 ++ map (fun r => text_line 7 (fst r ++ ": " ++ Text.fmt2f (snd r) ++ " " ++ cur))
                        (r0 :: rest))%list).
  { unfold add_category_breakdown. cbn [empty].
    rewrite !RendererFacts.calls_bind, RendererFacts.calls_for_each.
    cbn [calls set_font cell_ln ln_ emit snd app]. do 4 f_equal. }
  split; [exact E|]. rewrite E.
  cbn [app cell_texts flat_map text_line txt]. f_equal.
  generalize (r0 :: rest). intros l. induction l as [|r l IH]; [reflexivity|].
  cbn [map flat_map app text_line txt]. now rewrite IH.
Qed.

Lemma add_category_breakdown_lines_witness :
  cell_texts (calls (add_category_breakdown [("Rent", 15000%float); ("Groceries", 8000%float)] "PKR"))
  = ["Category Breakdown"; "Rent: 15000.00 PKR"; "Groceries: 8000.00 PKR"].
Proof.
  refine (proj2 (add_category_breakdown_lines
                   [("Rent", 15000%float); ("Groceries", 8000%float)] "PKR" _)).
  discriminate.
Defined.

End RendererExtras.
